(** * Document data extraction pipeline

    A shallow embedding of
    [src/AIDocumentPipeline/documents/services/document_data_extractor.py]:
    the options object, the two client factories, the page-image step and
    the orchestration method [from_bytes].

    The services the module talks to (PDF rasterisation, the layout
    service, the chat-completions endpoint) and the confidence package it
    imports are collaborators: they are gathered in the class
    [Collaborators] and every call made to one of them is recorded in a
    trace, so that statements about "what is sent" are statements about
    that trace. *)

From Stdlib Require Import ZArith PrimFloat Sorted.
From stdpp Require Import gmap strings list pretty.

Set Default Proof Using "Type".

(** ** Python values *)

Abbreviation bytes := (list Byte.byte).

(** The exceptions that can leave the module: the three a Python
    expression of the module can raise by itself and the errors of the
    collaborators, which the module never catches. *)
Inductive exn : Type :=
  | KeyError (key : string)
  | IndexError
  | AttributeError
  | ServiceError (what : string).

Inductive result (A : Type) : Type :=
  | Ok (a : A)
  | Raise (e : exn).
Arguments Ok {A} a.
Arguments Raise {A} e.

(** Truth value testing, as [if x:] and [x and y] perform it. *)
Class Truthy (A : Type) := truthy : A → bool.

#[export] Instance truthy_int : Truthy Z := λ n, negb (n =? 0)%Z.
#[export] Instance truthy_str : Truthy string := λ s, negb (String.eqb s EmptyString).
#[export] Instance truthy_optional `{Truthy A} : Truthy (option A) :=
  λ o, match o with Some a => truthy a | None => false end.

(** [l[start:stop]] for a list and two integers: a negative index counts
    from the end, and both indices are clamped to [0, len(l)]. *)
Definition slice_index (len i : Z) : Z :=
  if (i <? 0)%Z then Z.max (i + len) 0 else Z.min i len.

Definition py_slice {A : Type} (l : list A) (start stop : Z) : list A :=
  let len := Z.of_nat (length l) in
  let lo := slice_index len start in
  let hi := slice_index len stop in
  take (Z.to_nat (hi - lo)) (drop (Z.to_nat lo) l).

(** [l[i]] for a non-negative literal index. *)
Definition py_index {A : Type} (l : list A) (i : nat) : result A :=
  match l !! i with
  | Some a => Ok a
  | None => Raise IndexError
  end.

(** The literal [0.1]: the nearest binary64 value. *)
Definition float_0_1 : float := 0x1.999999999999ap-4%float.

(** ** The options object *)

Record DocumentDataExtractorOptions : Type := {
  system_prompt : string;
  extraction_prompt : string;
  page_start : option Z;
  page_end : option Z;
  openai_endpoint : string;
  aiservices_endpoint : option string;
  deployment_name : string;
  max_tokens : Z;
  temperature : float;
  top_p : float;
}.

(** [DocumentDataExtractorOptions.__init__]; the three keyword arguments
    with a default are optional here. *)
Definition new_options (extraction_prompt : string)
    (page_start page_end : option Z) (aiservices_endpoint : option string)
    (openai_endpoint deployment_name : string)
    (max_tokens : option Z) (temperature top_p : option float)
    : DocumentDataExtractorOptions :=
  {| system_prompt := "You are an AI assistant that extracts data from documents.";
     extraction_prompt := extraction_prompt;
     page_start := page_start;
     page_end := page_end;
     openai_endpoint := openai_endpoint;
     aiservices_endpoint := aiservices_endpoint;
     deployment_name := deployment_name;
     max_tokens := default 4096%Z max_tokens;
     temperature := default float_0_1 temperature;
     top_p := default float_0_1 top_p |}.

(** ** Requests and responses *)

Inductive DocumentContentFormat : Type := TEXT | MARKDOWN.

(** The keyword arguments of [begin_analyze_document]. *)
Record AnalyzeRequest : Type := {
  model_id : string;
  body : bytes;
  pages : option string;
  output_content_format : DocumentContentFormat;
  content_type : string;
}.


(** The dictionaries appended to [user_content]. *)
Inductive ContentPart : Type :=
  | TextPart (text : string)
  | ImageUrlPart (url : string).

Inductive MessageContent : Type :=
  | Plain (text : string)
  | Parts (parts : list ContentPart).

Record Message : Type := {
  role : string;
  content : MessageContent;
}.

(** Modelled from the spec: the confidence package ([shared.confidence])
    is not part of the sources; a ConfidenceMap is a "mapping FieldPath →
    confidence in [0,1], plus one reserved OVERALL key". *)
Abbreviation ConfidenceMap := (gmap string float).

Definition in_unit_interval (v : float) : bool :=
  (PrimFloat.leb 0 v && PrimFloat.leb v 1)%bool.

(** ** Collaborators *)

Class Collaborators : Type := {
  Credential : Type;
  Page : Type;
  AnalyzeResult : Type;
  LogProbs : Type;
  ResponseObject : Type;
  ResponseFormat : Type;
  ModelDump : Type;
  (** pdf2image and the PNG/base64 encoding of one page *)
  convert_from_bytes : bytes → result (list Page);
  save_png : Page → bytes;
  b64encode : bytes → string;
  (** [result.content] of the layout service's answer *)
  analyze_content : AnalyzeResult → option string;
  (** pydantic's [model_dump] *)
  model_dump : ResponseObject → ModelDump;
  OVERALL_CONFIDENCE_KEY : string;
}.

Section Extractor.
Context `{Collaborators}.

Record TokenProvider : Type := {
  provider_credential : Credential;
  provider_scope : string;
}.

Record AzureOpenAI : Type := {
  api_version : string;
  azure_endpoint : string;
  azure_ad_token_provider : TokenProvider;
}.

Record DocumentIntelligenceClient : Type := {
  di_endpoint : string;
  di_credential : Credential;
}.

(** The keyword arguments of [client.beta.chat.completions.parse]. *)
Record ParseRequest : Type := {
  model : string;
  messages : list Message;
  response_format : ResponseFormat;
  req_max_tokens : Z;
  req_temperature : float;
  req_top_p : float;
  logprobs : bool;
}.

Record ParsedMessage : Type := { parsed : option ResponseObject }.
Record Choice : Type := { message : ParsedMessage; choice_logprobs : LogProbs }.
Record Completion : Type := { choices : list Choice }.

Record ExtractionConfidenceResult : Type := {
  data : option ResponseObject;
  confidence_scores : ConfidenceMap;
  overall_confidence : float;
}.

(** The remote services and the functions of the confidence package: what
    they answer to a request. *)
Record Services : Type := {
  begin_analyze_document :
    DocumentIntelligenceClient → AnalyzeRequest → result AnalyzeResult;
  parse : AzureOpenAI → ParseRequest → result Completion;
  evaluate_confidence_openai : ModelDump → Choice → result ConfidenceMap;
  evaluate_confidence_di : ModelDump → AnalyzeResult → result ConfidenceMap;
  merge_confidence_values : ConfidenceMap → ConfidenceMap → result ConfidenceMap;
}.

(** ** Calls and the call trace *)

Inductive Call : Type :=
  | AnalyzeCall (client : DocumentIntelligenceClient) (req : AnalyzeRequest)
  | ConvertCall (document_bytes : bytes)
  | ParseCall (client : AzureOpenAI) (req : ParseRequest)
  | EvaluateOpenAICall (extract_result : ModelDump) (choice : Choice)
  | EvaluateDICall (extract_result : ModelDump) (analyze_result : AnalyzeResult)
  | MergeCall (confidence_a confidence_b : ConfidenceMap).

(** A computation: the calls it made, in order, and how it ended. *)
Definition M (A : Type) : Type := list Call * result A.

Definition raise {A} (e : exn) : M A := ([], Raise e).
Definition lift {A} (r : result A) : M A := ([], r).
Definition call {A} (c : Call) (r : result A) : M A := ([c], r).

#[export] Instance M_ret : MRet M := λ A a, ([], Ok a).

#[export] Instance M_bind : MBind M := λ A B k m,
  match m with
  | (t, Ok a) => let (t', r) := k a in (t ++ t', r)
  | (t, Raise e) => (t, Raise e)
  end.

Definition trace {A} (m : M A) : list Call := m.1.
Definition outcome {A} (m : M A) : result A := m.2.

(** The requests a computation sent to the layout service and to the
    extraction model, and whether it merged two confidence maps. *)
Definition layout_requests {A} (m : M A) : list AnalyzeRequest :=
  omap (λ c, match c with AnalyzeCall _ r => Some r | _ => None end) (trace m).

Definition layout_calls {A} (m : M A)
    : list (DocumentIntelligenceClient * AnalyzeRequest) :=
  omap (λ c, match c with AnalyzeCall di r => Some (di, r) | _ => None end) (trace m).

Definition extraction_requests {A} (m : M A) : list ParseRequest :=
  omap (λ c, match c with ParseCall _ r => Some r | _ => None end) (trace m).

Definition merges {A} (m : M A) : list (ConfidenceMap * ConfidenceMap) :=
  omap (λ c, match c with MergeCall a b => Some (a, b) | _ => None end) (trace m).

Definition openai_evaluations {A} (m : M A) : list (ModelDump * Choice) :=
  omap (λ c, match c with EvaluateOpenAICall d ch => Some (d, ch) | _ => None end)
       (trace m).

Definition extraction_calls {A} (m : M A) : list (AzureOpenAI * ParseRequest) :=
  omap (λ c, match c with ParseCall client r => Some (client, r) | _ => None end)
       (trace m).

Definition di_evaluations {A} (m : M A) : list (ModelDump * AnalyzeResult) :=
  omap (λ c, match c with EvaluateDICall d r => Some (d, r) | _ => None end)
       (trace m).

(** The error a collaborator answers to a call, when it answers one. *)
Definition error_of {A} (r : result A) : option exn :=
  match r with
  | Raise e => Some e
  | Ok _ => None
  end.

Definition failure (world : Services) (c : Call) : option exn :=
  match c with
  | AnalyzeCall client req => error_of (begin_analyze_document world client req)
  | ConvertCall document_bytes => error_of (convert_from_bytes document_bytes)
  | ParseCall client req => error_of (parse world client req)
  | EvaluateOpenAICall d choice => error_of (evaluate_confidence_openai world d choice)
  | EvaluateDICall d analysis => error_of (evaluate_confidence_di world d analysis)
  | MergeCall a b => error_of (merge_confidence_values world a b)
  end.

(** The place of a call in the course of a request. *)
Definition phase (c : Call) : nat :=
  match c with
  | AnalyzeCall _ _ => 0
  | ConvertCall _ => 1
  | ParseCall _ _ => 2
  | EvaluateOpenAICall _ _ => 3
  | EvaluateDICall _ _ => 4
  | MergeCall _ _ => 5
  end.

(** The markdown text that layout analysis produced in the course of a
    computation, if any: the non-empty content of the answer to its layout
    call. *)
Definition layout_markdown {A} (world : Services) (m : M A) : option string :=
  match layout_calls m with
  | (di, req) :: _ =>
      match begin_analyze_document world di req with
      | Ok result =>
          match analyze_content result with
          | Some md => if truthy md then Some md else None
          | None => None
          end
      | Raise _ => None
      end
  | [] => None
  end.

(** The invariant of a ConfidenceMap: the OVERALL key is present and every
    value lies in [0,1]. *)
Definition well_formed (confidence : ConfidenceMap) : Prop :=
  is_Some (confidence !! OVERALL_CONFIDENCE_KEY) ∧
  ∀ k v, confidence !! k = Some v → in_unit_interval v = true.

(** The content list of the user turn of a request. *)
Definition user_parts (req : ParseRequest) : list ContentPart :=
  match messages req !! 1%nat with
  | Some {| content := Parts ps |} => ps
  | _ => []
  end.

Definition image_urls (ps : list ContentPart) : list string :=
  omap (λ p, match p with ImageUrlPart u => Some u | TextPart _ => None end) ps.

(** ** DocumentDataExtractor *)

Record DocumentDataExtractor : Type := {
  credential : Credential;
}.

Section Methods.
(** What the services answer is fixed for the duration of one request. *)
Variable world : Services.
Variable self : DocumentDataExtractor.

Definition get_openai_client (options : DocumentDataExtractorOptions) : AzureOpenAI :=
  let token_provider :=
    {| provider_credential := credential self;
       provider_scope := "https://cognitiveservices.azure.com/.default" |} in
  {| api_version := "2024-12-01-preview";
     azure_endpoint := openai_endpoint options;
     azure_ad_token_provider := token_provider |}.

Definition get_document_intelligence_client (options : DocumentDataExtractorOptions)
    : option DocumentIntelligenceClient :=
  if negb (truthy (aiservices_endpoint options)) then None
  else
    match aiservices_endpoint options with
    | Some endpoint =>
        Some {| di_endpoint := endpoint; di_credential := credential self |}
    | None => None
    end.

(** One iteration of the loop over the pages. *)
Definition image_uri (page : Page) : string :=
  let base64_data := b64encode (save_png page) in
  "data:image/png;base64," +:+ base64_data.

(** The [if page_start and page_end:] of the page-image step. *)
Definition selected_pages {A} (pages : list A) (page_start page_end : option Z)
    : list A :=
  match page_start, page_end with
  | Some s, Some e =>
      if truthy s && truthy e then py_slice pages (s - 1) e else pages
  | _, _ => pages
  end.

Definition get_document_image_uris (document_bytes : bytes)
    (page_start page_end : option Z) : M (list string) :=
  pages ← call (ConvertCall document_bytes) (convert_from_bytes document_bytes);
  let image_uris := [] in
  let pages := selected_pages pages page_start page_end in
  let image_uris :=
    fold_left (λ image_uris page, image_uris ++ [image_uri page]) pages image_uris in
  mret image_uris.

(** The f-string [f"{page_start}-{page_end}"], or [None]. *)
Definition page_range (options : DocumentDataExtractorOptions) : option string :=
  match page_start options, page_end options with
  | Some s, Some e =>
      if truthy s && truthy e then Some (pretty s +:+ "-" +:+ pretty e) else None
  | _, _ => None
  end.

Definition from_bytes (document_bytes : bytes) (response_format : ResponseFormat)
    (options : DocumentDataExtractorOptions) : M ExtractionConfidenceResult :=
  let client := get_openai_client options in
  let di_client := get_document_intelligence_client options in
  let page_range := page_range options in
  layout ←
    match di_client with
    | Some di =>
        let req :=
          {| model_id := "prebuilt-layout";
             body := document_bytes;
             pages := page_range;
             output_content_format := MARKDOWN;
             content_type := "application/pdf" |} in
        result ← call (AnalyzeCall di req)
                      (begin_analyze_document world di req);
        mret (Some result, analyze_content result)
    | None => mret (None, None)
    end;
  let (result, document_markdown) := layout : option AnalyzeResult * option string in
  image_uris ←
    get_document_image_uris document_bytes (page_start options) (page_end options);
  let user_content := [] in
  let user_content := user_content ++ [TextPart (extraction_prompt options)] in
  let user_content :=
    match document_markdown with
    | Some md => if truthy md then user_content ++ [TextPart md] else user_content
    | None => user_content
    end in
  let user_content :=
    fold_left (λ user_content image_uri, user_content ++ [ImageUrlPart image_uri])
              image_uris user_content in
  let req :=
    {| model := deployment_name options;
       messages :=
         [ {| role := "system"; content := Plain (system_prompt options) |};
           {| role := "user"; content := Parts user_content |} ];
       response_format := response_format;
       req_max_tokens := 4096;
       req_temperature := float_0_1;
       req_top_p := float_0_1;
       logprobs := true |} in
  completion ← call (ParseCall client req) (parse world client req);
  choice ← lift (py_index (choices completion) 0);
  let response_obj := parsed (message choice) in
  response_obj_dict ←
    match response_obj with
    | Some obj => mret (model_dump obj)
    | None => raise AttributeError
    end;
  confidence_openai ←
    call (EvaluateOpenAICall response_obj_dict choice)
         (evaluate_confidence_openai world response_obj_dict choice);
  confidence ←
    match result with
    | Some result =>
        confidence_di ←
          call (EvaluateDICall response_obj_dict result)
               (evaluate_confidence_di world response_obj_dict result);
        call (MergeCall confidence_di confidence_openai)
             (merge_confidence_values world confidence_di confidence_openai)
    | None => mret confidence_openai
    end;
  overall ←
    match confidence !! OVERALL_CONFIDENCE_KEY with
    | Some v => mret v
    | None => raise (KeyError OVERALL_CONFIDENCE_KEY)
    end;
  mret {| data := response_obj;
         confidence_scores := confidence;
         overall_confidence := overall |}.

End Methods.
End Extractor.

(** ** A concrete world

    One page per byte of the document, numbered from 1; the layout
    service at "https://layout.down" times out, any other answers. *)

#[export] Instance demo_collaborators : Collaborators := {|
  Credential := unit;
  Page := nat;
  AnalyzeResult := string;
  LogProbs := list float;
  ResponseObject := string;
  ResponseFormat := unit;
  ModelDump := string;
  convert_from_bytes doc := Ok (seq 1 (length doc));
  save_png page := replicate page Byte.x00;
  b64encode png := pretty (length png);
  analyze_content result := Some result;
  model_dump obj := obj;
  OVERALL_CONFIDENCE_KEY := "_overall";
|}.

Definition demo_openai_confidence : ConfidenceMap :=
  {[ "_overall" := 0.5%float; "invoice_id" := 0.5%float ]}.

Definition demo_di_confidence : ConfidenceMap :=
  {[ "_overall" := 0.75%float; "invoice_id" := 0.75%float ]}.

Definition demo_world : Services := {|
  begin_analyze_document client req :=
    if String.eqb (di_endpoint client) "https://layout.down"
    then Raise (ServiceError "timeout")
    else Ok "# Invoice INV-100";
  parse client req :=
    Ok {| choices := [ {| message := {| parsed := Some "INV-100" |};
                          choice_logprobs := [] |} ] |};
  evaluate_confidence_openai extract_result choice :=
    Ok demo_openai_confidence;
  evaluate_confidence_di extract_result analyze_result :=
    Ok demo_di_confidence;
  merge_confidence_values confidence_a confidence_b :=
    Ok (confidence_a ∪ confidence_b);
|}.

Definition demo_self : DocumentDataExtractor := {| credential := () |}.

Definition demo_document : bytes := replicate 5 Byte.x25.

Definition demo_page (n : nat) : string :=
  "data:image/png;base64," +:+ pretty n.

Definition demo_options (page_start page_end : option Z)
    (aiservices_endpoint : option string) : DocumentDataExtractorOptions :=
  new_options "Extract the invoice." page_start page_end aiservices_endpoint
              "https://openai.example" "gpt-4o" None None None.

(** Options that override the three decoding parameters. *)
Definition demo_tuned_options : DocumentDataExtractorOptions :=
  new_options "Extract the invoice." None None None
              "https://openai.example" "gpt-4o"
              (Some 100%Z) (Some 0.5%float) (Some 0.25%float).

(** One request in the concrete world. *)
Definition demo_run (page_start page_end : option Z)
    (aiservices_endpoint : option string) : M ExtractionConfidenceResult :=
  from_bytes demo_world demo_self demo_document ()
             (demo_options page_start page_end aiservices_endpoint).

(** The extraction request of the concrete world whose user turn holds
    the given parts. *)
Definition demo_request (parts : list ContentPart) : ParseRequest :=
  {| model := "gpt-4o";
     messages :=
       [ {| role := "system";
            content :=
              Plain "You are an AI assistant that extracts data from documents." |};
         {| role := "user"; content := Parts parts |} ];
     response_format := ();
     req_max_tokens := 4096;
     req_temperature := float_0_1;
     req_top_p := float_0_1;
     logprobs := true |}.

(** The pages of [demo_document]. *)
Definition demo_pages : list Page := [1; 2; 3; 4; 5]%nat.

(** The result of the concrete world that carries the given scores. *)
Definition demo_result (confidence : ConfidenceMap) (overall : float)
    : ExtractionConfidenceResult :=
  {| data := Some "INV-100";
     confidence_scores := confidence;
     overall_confidence := overall |}.

(** The concrete world with another answer of the model and of the
    OpenAI evaluator. *)
Definition demo_world_answering (completion : Completion)
    (confidence : ConfidenceMap) : Services := {|
  begin_analyze_document := begin_analyze_document demo_world;
  parse client req := Ok completion;
  evaluate_confidence_openai extract_result choice := Ok confidence;
  evaluate_confidence_di := evaluate_confidence_di demo_world;
  merge_confidence_values := merge_confidence_values demo_world;
|}.

Definition demo_client : AzureOpenAI :=
  get_openai_client demo_self (demo_options None None None).

Definition demo_di_client (endpoint : string) : DocumentIntelligenceClient :=
  {| di_endpoint := endpoint; di_credential := () |}.

Definition demo_refusal : Choice :=
  {| message := {| parsed := None |}; choice_logprobs := [] |}.

Definition demo_choice : Choice :=
  {| message := {| parsed := Some "INV-100" |}; choice_logprobs := [] |}.

Definition demo_layout_request (pages : option string) : AnalyzeRequest :=
  {| model_id := "prebuilt-layout";
     body := demo_document;
     pages := pages;
     output_content_format := MARKDOWN;
     content_type := "application/pdf" |}.

(** A confidence map without the OVERALL key. *)
Definition demo_partial_confidence : ConfidenceMap :=
  {[ "invoice_id" := 0.5%float ]}.

(** The user turn for the whole document, without layout markdown. *)
Definition demo_whole_document : list ContentPart :=
  [ TextPart "Extract the invoice.";
    ImageUrlPart (demo_page 1); ImageUrlPart (demo_page 2);
    ImageUrlPart (demo_page 3); ImageUrlPart (demo_page 4);
    ImageUrlPart (demo_page 5) ].

(** One request in a world with other answers. *)
Definition demo_run_answering (completion : Completion) (confidence : ConfidenceMap)
    : M ExtractionConfidenceResult :=
  from_bytes (demo_world_answering completion confidence) demo_self demo_document ()
             (demo_options None None None).

(** * Invoice models

    [src/AIDocumentPipeline/invoices/models/invoice.py]: four pydantic
    models whose [to_json] is [obj.model_dump_json()] and whose [from_json]
    is [cls.model_validate_json(json_str)]. The two methods are inherited
    from pydantic's BaseModel, which is not part of the sources. *)

(** ** JSON texts and pydantic's JSON mode *)

(** Modelled from pydantic's documentation: a JSON text is represented by
    its syntax tree. What lies below the tree is not modelled: white
    space, the escapes of a string literal, the digits of a number
    literal; a number literal is represented by the integer or the
    binary64 value it denotes. *)
#[local] Unset Elimination Schemes.
Inductive json : Type :=
  | JNull
  | JBool (b : bool)
  | JInt (n : Z)
  | JFloat (x : float)
  | JString (s : string)
  | JArray (elements : list json)
  | JObject (members : list (string * json)).
#[local] Set Elimination Schemes.

(** Modelled from pydantic's documentation: the conversion table of lax
    mode, that is what validation makes of a value that is not of the JSON
    kind of the field's type (a numeric string or a float without
    fractional part for [int], an integer for [float], and so on). It is
    a parameter of the model; [None] is a ValidationError. *)
Class LaxMode : Type := {
  lax_str : json → option string;
  lax_int : json → option Z;
  lax_float : json → option float;
}.

(** The table that converts nothing. *)
Definition strict_mode : LaxMode :=
  {| lax_str := λ _, None; lax_int := λ _, None; lax_float := λ _, None |}.

(** Modelled from pydantic's documentation: serialisation in JSON mode.
    [None] is written [null]; with the default [ser_json_inf_nan = 'null']
    a float that is infinite or NaN is written [null] too. *)
Definition serialize_str (s : string) : json := JString s.

Definition serialize_int (n : Z) : json := JInt n.

Definition serialize_float (x : float) : json :=
  if is_finite x then JFloat x else JNull.

Definition serialize_optional {A} (serialize : A → json) (value : option A) : json :=
  match value with
  | Some a => serialize a
  | None => JNull
  end.

Definition serialize_list {A} (serialize : A → json) (l : list A) : json :=
  JArray (serialize <$> l).

(** Modelled from pydantic's documentation: validation in JSON mode;
    [None] is a ValidationError. [Optional[T]] reads [null] as [None] and
    anything else as [T]. *)
Definition validate_str `{LaxMode} (j : json) : option string :=
  match j with
  | JString s => Some s
  | _ => lax_str j
  end.

Definition validate_int `{LaxMode} (j : json) : option Z :=
  match j with
  | JInt n => Some n
  | _ => lax_int j
  end.

Definition validate_float `{LaxMode} (j : json) : option float :=
  match j with
  | JFloat x => Some x
  | _ => lax_float j
  end.

Definition validate_optional {A} (validate : json → option A) (j : json)
    : option (option A) :=
  match j with
  | JNull => Some None
  | _ => Some <$> validate j
  end.

Definition validate_list {A} (validate : json → option A) (j : json)
    : option (list A) :=
  match j with
  | JArray elements => mapM validate elements
  | _ => None
  end.

(** The value of a member of an object; of two members of one name the
    last one counts. A field declared without default is required: a
    member that is missing is a ValidationError. Members that no field
    declares are ignored. *)
Fixpoint member (name : string) (members : list (string * json)) : option json :=
  match members with
  | [] => None
  | (key, value) :: members =>
      match member name members with
      | Some later => Some later
      | None => if String.eqb key name then Some value else None
      end
  end.

Module InvoiceCurrency.

Record t : Type := {
  currency_code : option string;
  amount : option float;
}.

Definition model_dump_json (obj : t) : json :=
  JObject
    [ ("currency_code", serialize_optional serialize_str (currency_code obj));
      ("amount", serialize_optional serialize_float (amount obj)) ].

Definition model_validate_json `{LaxMode} (j : json) : option t :=
  match j with
  | JObject members =>
      currency_code ← member "currency_code" members
                        ≫= validate_optional validate_str;
      amount ← member "amount" members ≫= validate_optional validate_float;
      Some {| currency_code := currency_code; amount := amount |}
  | _ => None
  end.

Definition to_json (obj : t) : json := model_dump_json obj.

Definition from_json `{LaxMode} (json_str : json) : option t :=
  model_validate_json json_str.

(** The amount, when there is one, is neither infinite nor NaN. *)
Definition finite (obj : t) : bool :=
  match amount obj with
  | Some x => is_finite x
  | None => true
  end.

End InvoiceCurrency.

Module InvoiceAddress.

Record t : Type := {
  street : option string;
  city : option string;
  state : option string;
  postal_code : option string;
  country : option string;
}.

Definition model_dump_json (obj : t) : json :=
  JObject
    [ ("street", serialize_optional serialize_str (street obj));
      ("city", serialize_optional serialize_str (city obj));
      ("state", serialize_optional serialize_str (state obj));
      ("postal_code", serialize_optional serialize_str (postal_code obj));
      ("country", serialize_optional serialize_str (country obj)) ].

Definition model_validate_json `{LaxMode} (j : json) : option t :=
  match j with
  | JObject members =>
      street ← member "street" members ≫= validate_optional validate_str;
      city ← member "city" members ≫= validate_optional validate_str;
      state ← member "state" members ≫= validate_optional validate_str;
      postal_code ← member "postal_code" members ≫= validate_optional validate_str;
      country ← member "country" members ≫= validate_optional validate_str;
      Some {| street := street; city := city; state := state;
              postal_code := postal_code; country := country |}
  | _ => None
  end.

Definition to_json (obj : t) : json := model_dump_json obj.

Definition from_json `{LaxMode} (json_str : json) : option t :=
  model_validate_json json_str.

End InvoiceAddress.

Module InvoiceItem.

Record t : Type := {
  product_code : option string;
  description : option string;
  quantity : option Z;
  tax : option InvoiceCurrency.t;
  unit_price : option InvoiceCurrency.t;
  total : option InvoiceCurrency.t;
}.

Definition model_dump_json (obj : t) : json :=
  JObject
    [ ("product_code", serialize_optional serialize_str (product_code obj));
      ("description", serialize_optional serialize_str (description obj));
      ("quantity", serialize_optional serialize_int (quantity obj));
      ("tax", serialize_optional InvoiceCurrency.model_dump_json (tax obj));
      ("unit_price",
       serialize_optional InvoiceCurrency.model_dump_json (unit_price obj));
      ("total", serialize_optional InvoiceCurrency.model_dump_json (total obj)) ].

Definition model_validate_json `{LaxMode} (j : json) : option t :=
  match j with
  | JObject members =>
      product_code ← member "product_code" members
                       ≫= validate_optional validate_str;
      description ← member "description" members ≫= validate_optional validate_str;
      quantity ← member "quantity" members ≫= validate_optional validate_int;
      tax ← member "tax" members
              ≫= validate_optional InvoiceCurrency.model_validate_json;
      unit_price ← member "unit_price" members
                     ≫= validate_optional InvoiceCurrency.model_validate_json;
      total ← member "total" members
                ≫= validate_optional InvoiceCurrency.model_validate_json;
      Some {| product_code := product_code; description := description;
              quantity := quantity; tax := tax; unit_price := unit_price;
              total := total |}
  | _ => None
  end.

Definition to_json (obj : t) : json := model_dump_json obj.

Definition from_json `{LaxMode} (json_str : json) : option t :=
  model_validate_json json_str.

(** Every amount of the line item is neither infinite nor NaN. *)
Definition finite (obj : t) : bool :=
  from_option InvoiceCurrency.finite true (tax obj) &&
  from_option InvoiceCurrency.finite true (unit_price obj) &&
  from_option InvoiceCurrency.finite true (total obj).

End InvoiceItem.

Module Invoice.

Record t : Type := {
  customer_name : option string;
  customer_tax_id : option string;
  customer_address : option InvoiceAddress.t;
  shipping_address : option InvoiceAddress.t;
  purchase_order : option string;
  invoice_id : option string;
  invoice_date : option string;
  due_date : option string;
  vendor_name : option string;
  vendor_address : option InvoiceAddress.t;
  vendor_tax_id : option string;
  remittance_address : option InvoiceAddress.t;
  subtotal : option InvoiceCurrency.t;
  total_discount : option InvoiceCurrency.t;
  total_tax : option InvoiceCurrency.t;
  invoice_total : option InvoiceCurrency.t;
  payment_term : option string;
  items : option (list InvoiceItem.t);
}.

Definition model_dump_json (obj : t) : json :=
  JObject
    [ ("customer_name", serialize_optional serialize_str (customer_name obj));
      ("customer_tax_id", serialize_optional serialize_str (customer_tax_id obj));
      ("customer_address",
       serialize_optional InvoiceAddress.model_dump_json (customer_address obj));
      ("shipping_address",
       serialize_optional InvoiceAddress.model_dump_json (shipping_address obj));
      ("purchase_order", serialize_optional serialize_str (purchase_order obj));
      ("invoice_id", serialize_optional serialize_str (invoice_id obj));
      ("invoice_date", serialize_optional serialize_str (invoice_date obj));
      ("due_date", serialize_optional serialize_str (due_date obj));
      ("vendor_name", serialize_optional serialize_str (vendor_name obj));
      ("vendor_address",
       serialize_optional InvoiceAddress.model_dump_json (vendor_address obj));
      ("vendor_tax_id", serialize_optional serialize_str (vendor_tax_id obj));
      ("remittance_address",
       serialize_optional InvoiceAddress.model_dump_json (remittance_address obj));
      ("subtotal",
       serialize_optional InvoiceCurrency.model_dump_json (subtotal obj));
      ("total_discount",
       serialize_optional InvoiceCurrency.model_dump_json (total_discount obj));
      ("total_tax",
       serialize_optional InvoiceCurrency.model_dump_json (total_tax obj));
      ("invoice_total",
       serialize_optional InvoiceCurrency.model_dump_json (invoice_total obj));
      ("payment_term", serialize_optional serialize_str (payment_term obj));
      ("items",
       serialize_optional (serialize_list InvoiceItem.model_dump_json) (items obj)) ].

Definition model_validate_json `{LaxMode} (j : json) : option t :=
  match j with
  | JObject members =>
      customer_name ← member "customer_name" members
                        ≫= validate_optional validate_str;
      customer_tax_id ← member "customer_tax_id" members
                          ≫= validate_optional validate_str;
      customer_address ← member "customer_address" members
                           ≫= validate_optional InvoiceAddress.model_validate_json;
      shipping_address ← member "shipping_address" members
                           ≫= validate_optional InvoiceAddress.model_validate_json;
      purchase_order ← member "purchase_order" members
                         ≫= validate_optional validate_str;
      invoice_id ← member "invoice_id" members ≫= validate_optional validate_str;
      invoice_date ← member "invoice_date" members
                       ≫= validate_optional validate_str;
      due_date ← member "due_date" members ≫= validate_optional validate_str;
      vendor_name ← member "vendor_name" members ≫= validate_optional validate_str;
      vendor_address ← member "vendor_address" members
                         ≫= validate_optional InvoiceAddress.model_validate_json;
      vendor_tax_id ← member "vendor_tax_id" members
                        ≫= validate_optional validate_str;
      remittance_address ← member "remittance_address" members
                             ≫= validate_optional InvoiceAddress.model_validate_json;
      subtotal ← member "subtotal" members
                   ≫= validate_optional InvoiceCurrency.model_validate_json;
      total_discount ← member "total_discount" members
                         ≫= validate_optional InvoiceCurrency.model_validate_json;
      total_tax ← member "total_tax" members
                    ≫= validate_optional InvoiceCurrency.model_validate_json;
      invoice_total ← member "invoice_total" members
                        ≫= validate_optional InvoiceCurrency.model_validate_json;
      payment_term ← member "payment_term" members
                       ≫= validate_optional validate_str;
      items ← member "items" members
                ≫= validate_optional
                     (validate_list InvoiceItem.model_validate_json);
      Some {| customer_name := customer_name;
              customer_tax_id := customer_tax_id;
              customer_address := customer_address;
              shipping_address := shipping_address;
              purchase_order := purchase_order;
              invoice_id := invoice_id;
              invoice_date := invoice_date;
              due_date := due_date;
              vendor_name := vendor_name;
              vendor_address := vendor_address;
              vendor_tax_id := vendor_tax_id;
              remittance_address := remittance_address;
              subtotal := subtotal;
              total_discount := total_discount;
              total_tax := total_tax;
              invoice_total := invoice_total;
              payment_term := payment_term;
              items := items |}
  | _ => None
  end.

Definition to_json (obj : t) : json := model_dump_json obj.

Definition from_json `{LaxMode} (json_str : json) : option t :=
  model_validate_json json_str.

(** Every amount of the invoice and of its line items is neither infinite
    nor NaN. *)
Definition finite (obj : t) : bool :=
  from_option InvoiceCurrency.finite true (subtotal obj) &&
  from_option InvoiceCurrency.finite true (total_discount obj) &&
  from_option InvoiceCurrency.finite true (total_tax obj) &&
  from_option InvoiceCurrency.finite true (invoice_total obj) &&
  from_option (forallb InvoiceItem.finite) true (items obj).

End Invoice.

(** ** Concrete invoices *)

Definition demo_usd (amount : float) : InvoiceCurrency.t :=
  {| InvoiceCurrency.currency_code := Some "USD";
     InvoiceCurrency.amount := Some amount |}.

Definition demo_address : InvoiceAddress.t :=
  {| InvoiceAddress.street := Some "123 456th St";
     InvoiceAddress.city := Some "New York";
     InvoiceAddress.state := Some "NY";
     InvoiceAddress.postal_code := Some "10001";
     InvoiceAddress.country := None |}.

Definition demo_item : InvoiceItem.t :=
  {| InvoiceItem.product_code := Some "A123";
     InvoiceItem.description := Some "Consulting service";
     InvoiceItem.quantity := Some 2%Z;
     InvoiceItem.tax := None;
     InvoiceItem.unit_price := Some (demo_usd 30);
     InvoiceItem.total := Some (demo_usd 60) |}.

(** An invoice with the given subtotal. *)
Definition demo_invoice (subtotal : option InvoiceCurrency.t) : Invoice.t :=
  {| Invoice.customer_name := Some "Microsoft Corp";
     Invoice.customer_tax_id := None;
     Invoice.customer_address := None;
     Invoice.shipping_address := None;
     Invoice.purchase_order := Some "PO-3333";
     Invoice.invoice_id := Some "INV-100";
     Invoice.invoice_date := Some "2019-11-15";
     Invoice.due_date := None;
     Invoice.vendor_name := Some "CONTOSO LTD.";
     Invoice.vendor_address := Some demo_address;
     Invoice.vendor_tax_id := None;
     Invoice.remittance_address := None;
     Invoice.subtotal := subtotal;
     Invoice.total_discount := None;
     Invoice.total_tax := None;
     Invoice.invoice_total := Some (demo_usd 60);
     Invoice.payment_term := Some "Net30";
     Invoice.items := Some [demo_item] |}.

(** * Tactics *)

(** An answer that is already known is used as it is. *)
Ltac known_answer :=
  match goal with
  | Hknown : ?call = Ok _ |- context [?call] => rewrite Hknown
  | Hknown : ?call = Raise _ |- context [?call] => rewrite Hknown
  | Hknown : ?call = Some _ |- context [?call] => rewrite Hknown
  | Hknown : ?call = None |- context [?call] => rewrite Hknown
  | Hknown : ?test = true |- context [?test] => rewrite Hknown
  | Hknown : ?test = false |- context [?test] => rewrite Hknown
  end.

(** Case analysis on the answer of the next collaborator. *)
Ltac next_answer :=
  first [ known_answer |
  match goal with
  | |- context [begin_analyze_document ?w ?c ?r] =>
      destruct (begin_analyze_document w c r) as [?result|?err] eqn:?
  | |- context [analyze_content ?r] =>
      destruct (analyze_content r) as [?md|] eqn:?
  | |- context [@truthy string _ ?md] =>
      destruct (@truthy string _ md) eqn:?
  | |- context [convert_from_bytes ?d] =>
      destruct (convert_from_bytes d) as [?pages|?err] eqn:?
  | |- context [parse ?w ?c ?r] =>
      destruct (parse w c r) as [[[|?choice ?rest]]|?err] eqn:?
  | |- context [parsed (message ?c)] =>
      destruct (parsed (message c)) as [?obj|] eqn:?
  | |- context [evaluate_confidence_openai ?w ?d ?c] =>
      destruct (evaluate_confidence_openai w d c) as [?confidence|?err] eqn:?
  | |- context [evaluate_confidence_di ?w ?d ?r] =>
      destruct (evaluate_confidence_di w d r) as [?confidence|?err] eqn:?
  | |- context [merge_confidence_values ?w ?a ?b] =>
      destruct (merge_confidence_values w a b) as [?confidence|?err] eqn:?
  | |- context [?m !! OVERALL_CONFIDENCE_KEY] =>
      destruct (m !! OVERALL_CONFIDENCE_KEY) as [?overall|] eqn:?
  end ]; simpl in *.

Ltac run_from_bytes :=
  unfold layout_markdown, layout_calls, layout_requests, extraction_requests,
    merges, openai_evaluations, outcome, trace, from_bytes,
    get_document_image_uris, call;
  try match goal with
  | |- context [get_document_intelligence_client ?s ?o] =>
      destruct (get_document_intelligence_client s o) as [?di|] eqn:?
  end;
  simpl; repeat next_answer.

(** The same, with the further projections of the trace unfolded. *)
Ltac run_request :=
  unfold extraction_calls, di_evaluations; run_from_bytes.

(** A call known to be in a trace is one of the calls listed. *)
Ltac pick_call :=
  repeat match goal with
  | Hin : _ ∈ [] |- _ => by apply elem_of_nil in Hin
  | Hin : _ ∈ _ :: _ |- _ =>
      let Hpick := fresh "Hpick" in
      apply elem_of_cons in Hin as [Hpick|Hin];
      [try (injection Hpick as -> ->); subst|]
  end.

(** Two different answers to one call cannot be. *)
Ltac settle :=
  solve [ done | congruence |
          repeat match goal with
          | Hone : ?call = _, Hother : ?call = _ |- _ => rewrite Hone in Hother
          end;
          simplify_eq/=; first [done | congruence] ].

(** Reading back what a model wrote: the members are looked up by name
    and each optional field is read back by the lemma given. *)
Ltac read_back_by optional_field :=
  unfold InvoiceCurrency.from_json, InvoiceCurrency.to_json,
    InvoiceCurrency.model_validate_json, InvoiceCurrency.model_dump_json,
    InvoiceAddress.from_json, InvoiceAddress.to_json,
    InvoiceAddress.model_validate_json, InvoiceAddress.model_dump_json,
    InvoiceItem.from_json, InvoiceItem.to_json,
    InvoiceItem.model_validate_json, InvoiceItem.model_dump_json,
    Invoice.from_json, Invoice.to_json,
    Invoice.model_validate_json, Invoice.model_dump_json;
  cbn [member String.eqb Ascii.eqb Bool.eqb mbind option_bind];
  repeat (rewrite optional_field; [cbn [mbind option_bind]|]).

(** * Properties *)

Section Properties.
Context `{Collaborators}.
Implicit Types (world : Services) (self : DocumentDataExtractor).
Implicit Types (options : DocumentDataExtractorOptions) (document_bytes : bytes).

(** ** Loops that append *)

Lemma fold_left_append {A B} (f : A → B) (l : list A) (acc : list B) :
  fold_left (λ acc x, acc ++ [f x]) l acc = acc ++ (f <$> l).
Proof.
  revert acc. induction l as [|x l IH]; intros acc; simpl.
  - by rewrite app_nil_r.
  - by rewrite IH, <- app_assoc.
Qed.

Lemma image_urls_images (uris : list string) :
  image_urls (ImageUrlPart <$> uris) = uris.
Proof.
  induction uris as [|u uris IH]; simpl; [done|]. by f_equal.
Qed.

Lemma image_urls_app (ps qs : list ContentPart) :
  image_urls (ps ++ qs) = image_urls ps ++ image_urls qs.
Proof. apply omap_app. Qed.

(** ** Slices *)

Lemma py_slice_nil_ge {A} (l : list A) (start stop : Z) :
  (0 ≤ stop ≤ start)%Z → py_slice l start stop = [].
Proof.
  intros Hle. unfold py_slice, slice_index.
  destruct (Z.ltb_spec start 0), (Z.ltb_spec stop 0); try lia.
  replace (Z.to_nat _) with 0%nat at 1 by lia. done.
Qed.

Lemma py_slice_nil_beyond {A} (l : list A) (start stop : Z) :
  (Z.of_nat (length l) ≤ start)%Z → py_slice l start stop = [].
Proof.
  intros Hle. unfold py_slice, slice_index.
  destruct (Z.ltb_spec start 0); [lia|].
  rewrite drop_ge by lia. by rewrite take_nil.
Qed.

Lemma py_slice_clamp_stop {A} (l : list A) (start stop : Z) :
  (0 ≤ start)%Z → (Z.of_nat (length l) ≤ stop)%Z →
  py_slice l start stop = drop (Z.to_nat start) l.
Proof.
  intros Hstart Hstop. unfold py_slice, slice_index.
  destruct (Z.ltb_spec start 0), (Z.ltb_spec stop 0); try lia.
  destruct (Z.le_gt_cases start (Z.of_nat (length l))).
  - rewrite take_ge; [by rewrite Z.min_l by lia|].
    rewrite length_drop. lia.
  - rewrite !drop_ge by lia. by rewrite take_nil.
Qed.

Lemma py_slice_inner {A} (l : list A) (start stop : Z) :
  (0 ≤ start ≤ stop)%Z → (stop ≤ Z.of_nat (length l))%Z →
  py_slice l start stop = take (Z.to_nat (stop - start)) (drop (Z.to_nat start) l).
Proof.
  intros Hstart Hstop. unfold py_slice, slice_index.
  destruct (Z.ltb_spec start 0), (Z.ltb_spec stop 0); try lia.
  by rewrite !Z.min_l by lia.
Qed.

(** ** The page-image step *)

Lemma get_document_image_uris_eq document_bytes page_start page_end :
  get_document_image_uris document_bytes page_start page_end =
  ([ConvertCall document_bytes],
   match convert_from_bytes document_bytes with
   | Ok pages => Ok (image_uri <$> selected_pages pages page_start page_end)
   | Raise e => Raise e
   end).
Proof.
  unfold get_document_image_uris, call. simpl.
  destruct (convert_from_bytes document_bytes) as [pages|err]; simpl; [|done].
  by rewrite fold_left_append.
Qed.

(** ** Running [from_bytes] *)

Lemma get_document_intelligence_client_None self options :
  truthy (aiservices_endpoint options) = false →
  get_document_intelligence_client self options = None.
Proof.
  unfold get_document_intelligence_client. by intros ->.
Qed.

Lemma get_document_intelligence_client_Some self options endpoint :
  aiservices_endpoint options = Some endpoint → endpoint ≠ EmptyString →
  get_document_intelligence_client self options =
  Some {| di_endpoint := endpoint; di_credential := credential self |}.
Proof.
  unfold get_document_intelligence_client. intros -> Hne. simpl.
  unfold truthy, truthy_optional, truthy, truthy_str.
  by destruct (String.eqb_spec endpoint EmptyString).
Qed.

(** C1: with no layout-service endpoint configured, the confidence map of
    a returned result is exactly what the OpenAI evaluator answered for
    the parsed response; the layout service is not called and no merge
    takes place. *)
Theorem from_bytes_confidence_without_layout world self document_bytes fmt options r :
  aiservices_endpoint options = None →
  outcome (from_bytes world self document_bytes fmt options) = Ok r →
  ∃ extract_result choice,
    openai_evaluations (from_bytes world self document_bytes fmt options)
      = [(extract_result, choice)] ∧
    evaluate_confidence_openai world extract_result choice
      = Ok (confidence_scores r) ∧
    merges (from_bytes world self document_bytes fmt options) = [] ∧
    layout_requests (from_bytes world self document_bytes fmt options) = [].
Proof.
  intros Hnone.
  pose proof (get_document_intelligence_client_None self options) as Hdi.
  rewrite Hnone in Hdi. specialize (Hdi eq_refl).
  unfold from_bytes. rewrite Hdi. run_from_bytes; intros Hr; try discriminate.
  injection Hr as <-. simpl. by do 2 eexists.
Qed.

(** ** The requests sent *)

(** At most one extraction request is sent, and it carries the literals
    4096, 0.1 and 0.1 whatever the options hold. *)
Lemma from_bytes_decoding_literals world self document_bytes fmt options :
  ∀ req, req ∈ extraction_requests (from_bytes world self document_bytes fmt options) →
    req_max_tokens req = 4096%Z ∧
    req_temperature req = float_0_1 ∧
    req_top_p req = float_0_1 ∧
    logprobs req = true.
Proof.
  run_from_bytes; intros req Hin;
    solve [ by apply elem_of_nil in Hin
          | by apply list_elem_of_singleton in Hin; subst req ].
Qed.

(** The keyword arguments left out of a call to the constructor take the
    documented defaults; the ones given are stored as given. *)
Lemma new_options_defaults prompt ps pe ai oe dn :
  max_tokens (new_options prompt ps pe ai oe dn None None None) = 4096%Z ∧
  temperature (new_options prompt ps pe ai oe dn None None None) = float_0_1 ∧
  top_p (new_options prompt ps pe ai oe dn None None None) = float_0_1.
Proof. done. Qed.

Lemma new_options_overrides prompt ps pe ai oe dn n t p :
  max_tokens (new_options prompt ps pe ai oe dn (Some n) (Some t) (Some p)) = n ∧
  temperature (new_options prompt ps pe ai oe dn (Some n) (Some t) (Some p)) = t ∧
  top_p (new_options prompt ps pe ai oe dn (Some n) (Some t) (Some p)) = p.
Proof. done. Qed.

(** C3, as the code has it: when the document renders and both bounds are
    given, the page-image step does not fail on account of the range. It
    returns the images of the slice [pages[page_start-1:page_end]] when
    both bounds are non-zero and of all pages otherwise; the slice is empty
    when [0 < page_end < page_start] or [page_start] lies beyond the last
    page, and a [page_end] beyond the last page is clamped to the end. *)
Theorem get_document_image_uris_range_total document_bytes rendered (s e : Z) :
  convert_from_bytes document_bytes = Ok rendered →
  get_document_image_uris document_bytes (Some s) (Some e) =
    ([ConvertCall document_bytes],
     Ok (image_uri <$>
           (if bool_decide (s ≠ 0 ∧ e ≠ 0)%Z then py_slice rendered (s - 1) e
            else rendered))) ∧
  ((0 < e < s)%Z →
     outcome (get_document_image_uris document_bytes (Some s) (Some e)) = Ok []) ∧
  ((Z.of_nat (length rendered) < s)%Z → e ≠ 0%Z →
     outcome (get_document_image_uris document_bytes (Some s) (Some e)) = Ok []) ∧
  ((0 < s)%Z → (Z.of_nat (length rendered) ≤ e)%Z →
     outcome (get_document_image_uris document_bytes (Some s) (Some e)) =
       Ok (image_uri <$> drop (Z.to_nat (s - 1)) rendered)).
Proof.
  intros Hconv. rewrite get_document_image_uris_eq, Hconv.
  unfold outcome, selected_pages, truthy, truthy_int. simpl.
  repeat split.
  - do 2 f_equal. case_bool_decide as Hd;
      destruct (Z.eqb_spec s 0), (Z.eqb_spec e 0); simpl; done || lia.
  - intros Hlt. destruct (Z.eqb_spec s 0), (Z.eqb_spec e 0); try lia. simpl.
    by rewrite py_slice_nil_ge by lia.
  - intros Hlt He. destruct (Z.eqb_spec s 0), (Z.eqb_spec e 0); try lia. simpl.
    by rewrite py_slice_nil_beyond by lia.
  - intros Hs He. destruct (Z.eqb_spec s 0), (Z.eqb_spec e 0); try lia.
    + assert (rendered = []) as -> by (apply length_zero_iff_nil; lia).
      by rewrite drop_nil.
    + simpl. by rewrite py_slice_clamp_stop by lia.
Qed.

(** The two messages of an extraction request, for a document that
    renders: the system prompt, then the user turn whose content is the
    extraction prompt, the layout markdown when there is one, and the
    images of the selected pages. *)
Lemma from_bytes_messages world self document_bytes fmt options rendered :
  convert_from_bytes document_bytes = Ok rendered →
  ∀ req, req ∈ extraction_requests (from_bytes world self document_bytes fmt options) →
    messages req =
      [ {| role := "system"; content := Plain (system_prompt options) |};
        {| role := "user";
           content := Parts
             ([TextPart (extraction_prompt options)] ++
              match layout_markdown world
                      (from_bytes world self document_bytes fmt options) with
              | Some md => [TextPart md]
              | None => []
              end ++
              (ImageUrlPart <$>
                 (image_uri <$> selected_pages rendered (page_start options)
                                               (page_end options)))) |} ].
Proof.
  intros Hconv.
  run_from_bytes; intros req Hin;
    try (by apply elem_of_nil in Hin);
    apply list_elem_of_singleton in Hin; subst req;
    simpl; by rewrite !fold_left_append.
Qed.

(** The extraction request is really sent: when the document renders and
    the layout call, if there is one, is answered, exactly one request goes
    to the model. *)
Lemma from_bytes_sends_extraction_request
    world self document_bytes fmt options rendered :
  convert_from_bytes document_bytes = Ok rendered →
  (∀ call, call ∈ layout_calls (from_bytes world self document_bytes fmt options) →
     ∃ result, begin_analyze_document world call.1 call.2 = Ok result) →
  ∃ req, extraction_requests (from_bytes world self document_bytes fmt options) = [req].
Proof.
  intros Hconv.
  run_from_bytes; intros Hanswered; eauto;
    destruct (Hanswered _ (list_elem_of_here _ _)) as [result' Hresult];
    simpl in Hresult; congruence.
Qed.

(** The requests sent to the layout service: one when the endpoint option
    is a non-empty string, none otherwise. *)
Lemma from_bytes_layout_requests world self document_bytes fmt options :
  layout_requests (from_bytes world self document_bytes fmt options) =
  if truthy (aiservices_endpoint options) then
    [ {| model_id := "prebuilt-layout";
         body := document_bytes;
         pages := page_range options;
         output_content_format := MARKDOWN;
         content_type := "application/pdf" |} ]
  else [].
Proof.
  destruct (truthy (aiservices_endpoint options)) eqn:Hep.
  - unfold from_bytes, get_document_intelligence_client. rewrite Hep. simpl.
    destruct (aiservices_endpoint options) as [endpoint|]; [|done].
    run_from_bytes; done.
  - unfold from_bytes.
    rewrite (get_document_intelligence_client_None _ _ Hep).
    run_from_bytes; done.
Qed.

(** The one extraction request of a request whose document renders and
    whose layout call, if any, is answered. *)
Lemma from_bytes_the_extraction_request
    world self document_bytes fmt options rendered :
  convert_from_bytes document_bytes = Ok rendered →
  (∀ call, call ∈ layout_calls (from_bytes world self document_bytes fmt options) →
     ∃ result, begin_analyze_document world call.1 call.2 = Ok result) →
  ∃ req,
    extraction_requests (from_bytes world self document_bytes fmt options) = [req] ∧
    user_parts req =
      [TextPart (extraction_prompt options)] ++
      match layout_markdown world
              (from_bytes world self document_bytes fmt options) with
      | Some md => [TextPart md]
      | None => []
      end ++
      (ImageUrlPart <$>
         (image_uri <$> selected_pages rendered (page_start options)
                                       (page_end options))).
Proof.
  intros Hconv Hanswered.
  destruct (from_bytes_sends_extraction_request _ _ _ _ _ _ Hconv Hanswered)
    as [req Hreq].
  exists req. split; [done|]. unfold user_parts.
  rewrite (from_bytes_messages world self document_bytes fmt options rendered
             Hconv req); [done|].
  rewrite Hreq. by apply list_elem_of_singleton.
Qed.

(** C4: when exactly one of the two bounds is given, the document renders
    and the layout call, if any, is answered, then the layout request, if
    any, carries no page range, the page-image step returns the images of
    all rendered pages, and one extraction request is sent, whose image
    parts are the images of all rendered pages, in order. *)
Theorem from_bytes_single_bound_whole_document
    world self document_bytes fmt options rendered :
  (page_start options = None ∧ is_Some (page_end options)) ∨
  (is_Some (page_start options) ∧ page_end options = None) →
  convert_from_bytes document_bytes = Ok rendered →
  (∀ call, call ∈ layout_calls (from_bytes world self document_bytes fmt options) →
     ∃ result, begin_analyze_document world call.1 call.2 = Ok result) →
  pages <$> layout_requests (from_bytes world self document_bytes fmt options) =
    (if truthy (aiservices_endpoint options) then [None] else []) ∧
  outcome (get_document_image_uris document_bytes
             (page_start options) (page_end options)) = Ok (image_uri <$> rendered) ∧
  ∃ req,
    extraction_requests (from_bytes world self document_bytes fmt options) = [req] ∧
    image_urls (user_parts req) = image_uri <$> rendered.
Proof.
  intros Hone Hconv Hanswered.
  assert (page_range options = None ∧
          selected_pages rendered (page_start options) (page_end options) = rendered)
    as [Hrange Hsel].
  { unfold page_range, selected_pages.
    destruct Hone as [[-> _]|[_ ->]]; [done|]. by destruct (page_start options). }
  split; [|split].
  - rewrite from_bytes_layout_requests, Hrange.
    by destruct (truthy (aiservices_endpoint options)).
  - by rewrite get_document_image_uris_eq, Hconv, Hsel.
  - destruct (from_bytes_the_extraction_request _ _ _ _ _ _ Hconv Hanswered)
      as (req & Hreq & Hparts).
    exists req. split; [done|].
    rewrite Hparts, Hsel, !image_urls_app, image_urls_images.
    by destruct (layout_markdown _ _).
Qed.

(** C5: on a document of five pages with [page_start = 2] and
    [page_end = 3], the page-image step yields the images of the second and
    third page; when the layout call, if any, is answered, one extraction
    request is sent, and its user turn ends with exactly these two image
    parts, in that order, after text parts only. *)
Theorem from_bytes_pages_2_3_of_5
    world self document_bytes fmt options (p1 p2 p3 p4 p5 : Page) :
  convert_from_bytes document_bytes = Ok [p1; p2; p3; p4; p5] →
  page_start options = Some 2%Z →
  page_end options = Some 3%Z →
  (∀ call, call ∈ layout_calls (from_bytes world self document_bytes fmt options) →
     ∃ result, begin_analyze_document world call.1 call.2 = Ok result) →
  get_document_image_uris document_bytes (page_start options) (page_end options) =
    ([ConvertCall document_bytes], Ok [image_uri p2; image_uri p3]) ∧
  ∃ req texts,
    extraction_requests (from_bytes world self document_bytes fmt options) = [req] ∧
    image_urls texts = [] ∧
    user_parts req =
      texts ++ [ImageUrlPart (image_uri p2); ImageUrlPart (image_uri p3)].
Proof.
  intros Hconv Hs He Hanswered. split.
  - by rewrite get_document_image_uris_eq, Hconv, Hs, He.
  - destruct (from_bytes_the_extraction_request _ _ _ _ _ _ Hconv Hanswered)
      as (req & Hreq & Hparts).
    exists req. rewrite Hparts, Hs, He. simpl.
    destruct (layout_markdown _ _) as [md|].
    + by exists [TextPart (extraction_prompt options); TextPart md].
    + by exists [TextPart (extraction_prompt options)].
Qed.

(** C6: when the document renders and the layout call, if any, is
    answered, one extraction request is sent, and its user turn is the
    extraction prompt, then the layout markdown exactly when layout
    analysis produced a non-empty one, then one image part per selected
    page in page order, and nothing else. When the document does not
    render or the layout call fails, no extraction request is sent. *)
Theorem from_bytes_user_content_order world self document_bytes fmt options :
  (∀ rendered,
     convert_from_bytes document_bytes = Ok rendered →
     (∀ call, call ∈ layout_calls (from_bytes world self document_bytes fmt options) →
        ∃ result, begin_analyze_document world call.1 call.2 = Ok result) →
     ∃ req,
       extraction_requests (from_bytes world self document_bytes fmt options)
         = [req] ∧
       user_parts req =
         [TextPart (extraction_prompt options)] ++
         match layout_markdown world
                 (from_bytes world self document_bytes fmt options) with
         | Some md => [TextPart md]
         | None => []
         end ++
         (ImageUrlPart <$>
            (image_uri <$> selected_pages rendered (page_start options)
                                          (page_end options)))) ∧
  (∀ e,
     convert_from_bytes document_bytes = Raise e ∨
     (∃ call, call ∈ layout_calls (from_bytes world self document_bytes fmt options) ∧
              begin_analyze_document world call.1 call.2 = Raise e) →
     extraction_requests (from_bytes world self document_bytes fmt options) = []).
Proof.
  split.
  - intros rendered. apply from_bytes_the_extraction_request.
  - intros e [Hconv|(call & Hin & Hfail)].
    + run_from_bytes; settle.
    + revert call Hin Hfail. run_from_bytes; intros call Hin Hfail; pick_call;
        settle.
Qed.

(** C7, as the code has it: a failure of the layout-analysis call is not
    caught. [from_bytes] ends with that very error, after the layout call
    and before any page is rendered or any extraction request is sent. *)
Theorem from_bytes_layout_failure_propagates
    world self document_bytes fmt options endpoint e :
  aiservices_endpoint options = Some endpoint →
  endpoint ≠ EmptyString →
  begin_analyze_document world
    {| di_endpoint := endpoint; di_credential := credential self |}
    {| model_id := "prebuilt-layout";
       body := document_bytes;
       pages := page_range options;
       output_content_format := MARKDOWN;
       content_type := "application/pdf" |} = Raise e →
  from_bytes world self document_bytes fmt options =
    ([AnalyzeCall
        {| di_endpoint := endpoint; di_credential := credential self |}
        {| model_id := "prebuilt-layout";
           body := document_bytes;
           pages := page_range options;
           output_content_format := MARKDOWN;
           content_type := "application/pdf" |}],
     Raise e).
Proof.
  intros Hep Hne Hfail. unfold from_bytes.
  rewrite (get_document_intelligence_client_Some _ _ _ Hep Hne).
  simpl. by rewrite Hfail.
Qed.

(** The layout request with the page range written out from the two
    bounds: a bound equal to 0 counts as not given. *)
Lemma from_bytes_layout_request world self document_bytes fmt options :
  layout_requests (from_bytes world self document_bytes fmt options) =
  if truthy (aiservices_endpoint options) then
    [ {| model_id := "prebuilt-layout";
         body := document_bytes;
         pages :=
           match page_start options, page_end options with
           | Some s, Some e =>
               if bool_decide (s ≠ 0 ∧ e ≠ 0)%Z
               then Some (pretty s +:+ "-" +:+ pretty e) else None
           | _, _ => None
           end;
         output_content_format := MARKDOWN;
         content_type := "application/pdf" |} ]
  else [].
Proof.
  assert (page_range options =
          match page_start options, page_end options with
          | Some s, Some e =>
              if bool_decide (s ≠ 0 ∧ e ≠ 0)%Z
              then Some (pretty s +:+ "-" +:+ pretty e) else None
          | _, _ => None
          end) as <-.
  { unfold page_range, truthy, truthy_int.
    destruct (page_start options) as [s|], (page_end options) as [e|]; try done.
    case_bool_decide; destruct (Z.eqb_spec s 0), (Z.eqb_spec e 0);
      simpl; done || lia. }
  destruct (truthy (aiservices_endpoint options)) eqn:Hep.
  - unfold from_bytes, get_document_intelligence_client. rewrite Hep. simpl.
    destruct (aiservices_endpoint options) as [endpoint|]; [|done].
    run_from_bytes; done.
  - unfold from_bytes.
    rewrite (get_document_intelligence_client_None _ _ Hep).
    run_from_bytes; done.
Qed.


(** C9: if the two evaluators answer well-formed maps, and the merger
    answers a well-formed map when given two, then the confidence map of
    every returned result is well formed (OVERALL present, every value in
    [0,1]) and the overall confidence of the result is the value at
    OVERALL. *)
Theorem from_bytes_confidence_invariant world self document_bytes fmt options r :
  (∀ d choice m, evaluate_confidence_openai world d choice = Ok m → well_formed m) →
  (∀ d analysis m, evaluate_confidence_di world d analysis = Ok m → well_formed m) →
  (∀ a b m, well_formed a → well_formed b →
     merge_confidence_values world a b = Ok m → well_formed m) →
  outcome (from_bytes world self document_bytes fmt options) = Ok r →
  well_formed (confidence_scores r) ∧
  confidence_scores r !! OVERALL_CONFIDENCE_KEY = Some (overall_confidence r).
Proof.
  intros Hopenai Hdi Hmerge. revert r.
  run_from_bytes; intros r Hr; try discriminate; injection Hr as <-; simpl;
    (split; [|done]); eauto.
Qed.

(** The result is produced whenever every collaborator answers: the
    document renders, the model returns a parsed choice, and the final
    confidence map holds the OVERALL key. Here without a layout endpoint. *)
Lemma from_bytes_returns world self document_bytes fmt options
    rendered completion choice obj confidence overall :
  truthy (aiservices_endpoint options) = false →
  convert_from_bytes document_bytes = Ok rendered →
  (∀ req, parse world (get_openai_client self options) req = Ok completion) →
  choices completion !! 0%nat = Some choice →
  parsed (message choice) = Some obj →
  evaluate_confidence_openai world (model_dump obj) choice = Ok confidence →
  confidence !! OVERALL_CONFIDENCE_KEY = Some overall →
  outcome (from_bytes world self document_bytes fmt options) =
    Ok {| data := Some obj;
          confidence_scores := confidence;
          overall_confidence := overall |}.
Proof.
  intros Hep Hconv Hparse Hchoice Hobj Hconf Hoverall.
  unfold from_bytes, outcome.
  rewrite (get_document_intelligence_client_None _ _ Hep).
  rewrite get_document_image_uris_eq, Hconv. simpl.
  rewrite Hparse. simpl. unfold py_index. rewrite Hchoice. simpl.
  rewrite Hobj. simpl. rewrite Hconf. simpl. by rewrite Hoverall.
Qed.

End Properties.

(** * The concrete world *)

Example demo_run_2_3 :
  extraction_requests (demo_run (Some 2%Z) (Some 3%Z) (Some "https://layout.up")) =
  [ demo_request [ TextPart "Extract the invoice.";
                   TextPart "# Invoice INV-100";
                   ImageUrlPart (demo_page 2);
                   ImageUrlPart (demo_page 3) ] ].
Proof. vm_compute. reflexivity. Qed.

Example demo_range_2_3 :
  pages <$> layout_requests (demo_run (Some 2%Z) (Some 3%Z) (Some "https://layout.up"))
  = [Some "2-3"].
Proof. vm_compute. reflexivity. Qed.

Lemma demo_openai_well_formed : well_formed demo_openai_confidence.
Proof.
  split; [by eexists|]. intros k v. unfold demo_openai_confidence.
  intros [[_ <-]|[_ [_ <-]%lookup_singleton_Some]]%lookup_insert_Some; done.
Qed.

Lemma demo_di_well_formed : well_formed demo_di_confidence.
Proof.
  split; [by eexists|]. intros k v. unfold demo_di_confidence.
  intros [[_ <-]|[_ [_ <-]%lookup_singleton_Some]]%lookup_insert_Some; done.
Qed.

Lemma union_well_formed (a b : ConfidenceMap) :
  well_formed a → well_formed b → well_formed (a ∪ b).
Proof.
  intros [[va Ha] Hval_a] [_ Hval_b]. split.
  - exists va. by apply lookup_union_Some_l.
  - intros k v [?|[_ ?]]%lookup_union_Some_raw; eauto.
Qed.

(** C1, on a request without layout endpoint. *)
Lemma from_bytes_confidence_without_layout_witness :
  ∃ extract_result choice,
    openai_evaluations (demo_run (Some 2%Z) (Some 3%Z) None)
      = [(extract_result, choice)] ∧
    evaluate_confidence_openai demo_world extract_result choice
      = Ok demo_openai_confidence ∧
    merges (demo_run (Some 2%Z) (Some 3%Z) None) = [] ∧
    layout_requests (demo_run (Some 2%Z) (Some 3%Z) None) = [].
Proof.
  apply (from_bytes_confidence_without_layout demo_world demo_self demo_document ()
           (demo_options (Some 2%Z) (Some 3%Z) None)
           (demo_result demo_openai_confidence 0.5%float)).
  - reflexivity.
  - vm_compute. reflexivity.
Defined.

(** C2: the options ask for at most 100 tokens, temperature 0.5 and
    nucleus threshold 0.25; the request sent carries 4096, 0.1 and 0.1. *)
Theorem from_bytes_ignores_decoding_options :
  (max_tokens demo_tuned_options, temperature demo_tuned_options,
   top_p demo_tuned_options) = (100%Z, 0.5%float, 0.25%float) ∧
  (λ req, (req_max_tokens req, req_temperature req, req_top_p req)) <$>
    extraction_requests
      (from_bytes demo_world demo_self demo_document () demo_tuned_options)
    = [(4096%Z, float_0_1, float_0_1)].
Proof. split; vm_compute; reflexivity. Qed.

(** C3 fails as stated: on the five-page document the range (3, 2) is
    reversed and the range (4, 9) ends beyond the last page, yet the step
    returns a list in both cases. *)
Lemma get_document_image_uris_no_range_error :
  (3 > 2)%Z ∧
  outcome (get_document_image_uris demo_document (Some 3%Z) (Some 2%Z)) = Ok [] ∧
  (9 > Z.of_nat (length demo_document))%Z ∧
  outcome (get_document_image_uris demo_document (Some 4%Z) (Some 9%Z))
    = Ok [demo_page 4; demo_page 5].
Proof. repeat split; vm_compute; reflexivity. Qed.

Lemma get_document_image_uris_range_total_witness :
  get_document_image_uris demo_document (Some 3%Z) (Some 2%Z)
    = ([ConvertCall demo_document], Ok []) ∧
  outcome (get_document_image_uris demo_document (Some 3%Z) (Some 2%Z)) = Ok [].
Proof.
  destruct (get_document_image_uris_range_total
              demo_document demo_pages 3 2 eq_refl)
    as (Heq & Hreversed & _ & _).
  split; [exact Heq | apply Hreversed; lia].
Defined.

(** C4, with only [page_start] given. *)
Lemma from_bytes_single_bound_whole_document_witness :
  pages <$> layout_requests (demo_run (Some 2%Z) None (Some "https://layout.up"))
    = [None] ∧
  outcome (get_document_image_uris demo_document (Some 2%Z) None)
    = Ok (image_uri <$> demo_pages) ∧
  ∃ req,
    extraction_requests (demo_run (Some 2%Z) None (Some "https://layout.up"))
      = [req] ∧
    image_urls (user_parts req) = image_uri <$> demo_pages.
Proof.
  refine (from_bytes_single_bound_whole_document demo_world demo_self
            demo_document () (demo_options (Some 2%Z) None (Some "https://layout.up"))
            demo_pages _ _ _).
  - right. split; [by eexists | reflexivity].
  - reflexivity.
  - intros call Hin. apply list_elem_of_singleton in Hin. subst call.
    eexists. reflexivity.
Defined.

(** C5, on the five-page document. *)
Lemma from_bytes_pages_2_3_of_5_witness :
  get_document_image_uris demo_document (Some 2%Z) (Some 3%Z)
    = ([ConvertCall demo_document], Ok [demo_page 2; demo_page 3]) ∧
  ∃ req texts,
    extraction_requests (demo_run (Some 2%Z) (Some 3%Z) (Some "https://layout.up"))
      = [req] ∧
    image_urls texts = [] ∧
    user_parts req
      = texts ++ [ImageUrlPart (demo_page 2); ImageUrlPart (demo_page 3)].
Proof.
  refine (from_bytes_pages_2_3_of_5 (H:=demo_collaborators)
            demo_world demo_self demo_document ()
            (demo_options (Some 2%Z) (Some 3%Z) (Some "https://layout.up"))
            1%nat 2%nat 3%nat 4%nat 5%nat _ _ _ _).
  - reflexivity.
  - reflexivity.
  - reflexivity.
  - intros call Hin. apply list_elem_of_singleton in Hin. subst call.
    eexists. reflexivity.
Defined.

(** C6, on a request with layout markdown and a page range. *)
Lemma from_bytes_user_content_order_witness :
  ∃ req,
    extraction_requests (demo_run (Some 2%Z) (Some 3%Z) (Some "https://layout.up"))
      = [req] ∧
    user_parts req
    = [TextPart "Extract the invoice."] ++
      match layout_markdown demo_world
              (demo_run (Some 2%Z) (Some 3%Z) (Some "https://layout.up")) with
      | Some md => [TextPart md]
      | None => []
      end ++
      (ImageUrlPart <$> (image_uri <$> selected_pages demo_pages (Some 2%Z) (Some 3%Z))).
Proof.
  refine (proj1 (from_bytes_user_content_order demo_world demo_self demo_document ()
                   (demo_options (Some 2%Z) (Some 3%Z) (Some "https://layout.up")))
                demo_pages _ _).
  - reflexivity.
  - intros call Hin. apply list_elem_of_singleton in Hin. subst call.
    eexists. reflexivity.
Defined.

(** C7 fails as stated: the layout service is configured and times out,
    and the request ends with that error; nothing is sent to the model and
    no result is returned. *)
Lemma from_bytes_aborts_on_layout_failure :
  aiservices_endpoint (demo_options None None (Some "https://layout.down"))
    = Some "https://layout.down" ∧
  length (layout_requests (demo_run None None (Some "https://layout.down"))) = 1%nat ∧
  extraction_requests (demo_run None None (Some "https://layout.down")) = [] ∧
  outcome (demo_run None None (Some "https://layout.down"))
    = Raise (ServiceError "timeout").
Proof. repeat split; vm_compute; reflexivity. Qed.

Lemma from_bytes_layout_failure_propagates_witness :
  demo_run None None (Some "https://layout.down") =
    ([AnalyzeCall
        {| di_endpoint := "https://layout.down"; di_credential := () |}
        {| model_id := "prebuilt-layout";
           body := demo_document;
           pages := None;
           output_content_format := MARKDOWN;
           content_type := "application/pdf" |}],
     Raise (ServiceError "timeout")).
Proof.
  apply (from_bytes_layout_failure_propagates demo_world demo_self demo_document ()
           (demo_options None None (Some "https://layout.down"))
           "https://layout.down" (ServiceError "timeout")).
  - reflexivity.
  - discriminate.
  - reflexivity.
Defined.


(** Outside the page numbers counted from 1: a bound equal to 0 counts as
    not given, and the layout service is called without a page range. *)
Lemma from_bytes_layout_request_zero_bound :
  page_start (demo_options (Some 0%Z) (Some 3%Z) (Some "https://layout.up"))
    = Some 0%Z ∧
  page_end (demo_options (Some 0%Z) (Some 3%Z) (Some "https://layout.up"))
    = Some 3%Z ∧
  pages <$> layout_requests (demo_run (Some 0%Z) (Some 3%Z) (Some "https://layout.up"))
    = [None] ∧
  pages <$> layout_requests (demo_run (Some 0%Z) (Some 3%Z) (Some "https://layout.up"))
    ≠ [Some "0-3"].
Proof. repeat split; try (vm_compute; reflexivity). vm_compute. discriminate. Qed.

(** C9, on a request where both evaluators and the merger run. *)
Lemma from_bytes_confidence_invariant_witness :
  well_formed (demo_di_confidence ∪ demo_openai_confidence) ∧
  (demo_di_confidence ∪ demo_openai_confidence) !! "_overall" = Some 0.75%float.
Proof.
  refine (from_bytes_confidence_invariant demo_world demo_self demo_document ()
            (demo_options None None (Some "https://layout.up"))
            (demo_result (demo_di_confidence ∪ demo_openai_confidence) 0.75%float)
            _ _ _ _).
  - intros d choice m [= <-]. apply demo_openai_well_formed.
  - intros d analysis m [= <-]. apply demo_di_well_formed.
  - intros a b m Ha Hb [= <-]. by apply union_well_formed.
  - vm_compute. reflexivity.
Defined.

(** * Further properties of the extractor *)

Section Requests.
Context `{Collaborators}.
Implicit Types (world : Services) (self : DocumentDataExtractor).
Implicit Types (options : DocumentDataExtractorOptions) (document_bytes : bytes).

(** ** Errors *)

(** X1: no error of a collaborator is caught. If any call made in the
    course of a request was answered with an error, the request ends with
    that error and that call is the last one made. *)
Theorem from_bytes_never_catches world self document_bytes fmt options c e :
  c ∈ trace (from_bytes world self document_bytes fmt options) →
  failure world c = Some e →
  outcome (from_bytes world self document_bytes fmt options) = Raise e ∧
  last (trace (from_bytes world self document_bytes fmt options)) = Some c.
Proof.
  revert c. run_request; intros c Hin Hfail; pick_call; simpl in Hfail;
    repeat match goal with
    | Hknown : ?call = _, Hf : context [?call] |- _ => rewrite Hknown in Hf
    end; simpl in Hfail; by simplify_eq.
Qed.

(** X2: every error a request ends with has one of two origins. Either it
    is the error the last call made was answered with, or it is raised by
    the method itself: IndexError for an answer without choices,
    AttributeError for a choice without parsed object, KeyError for a
    confidence map without the OVERALL key. *)
Theorem from_bytes_error_origin world self document_bytes fmt options e :
  outcome (from_bytes world self document_bytes fmt options) = Raise e →
  (∃ c, last (trace (from_bytes world self document_bytes fmt options)) = Some c ∧
        failure world c = Some e) ∨
  e = IndexError ∨ e = AttributeError ∨ e = KeyError OVERALL_CONFIDENCE_KEY.
Proof.
  revert e. run_request; intros e He; simplify_eq; try (by auto);
    left; eexists; (split; [reflexivity|]); simpl;
    repeat match goal with
    | Hknown : ?call = _ |- context [?call] => rewrite Hknown
    end; done.
Qed.

(** X3: an answer of the model without any choice makes the request end
    with IndexError, and no confidence evaluator is called: neither the
    OpenAI evaluator, nor the layout evaluator, nor the merger. *)
Theorem from_bytes_no_choice world self document_bytes fmt options client req :
  (client, req) ∈ extraction_calls (from_bytes world self document_bytes fmt options) →
  parse world client req = Ok {| choices := [] |} →
  outcome (from_bytes world self document_bytes fmt options) = Raise IndexError ∧
  openai_evaluations (from_bytes world self document_bytes fmt options) = [] ∧
  di_evaluations (from_bytes world self document_bytes fmt options) = [] ∧
  merges (from_bytes world self document_bytes fmt options) = [].
Proof.
  revert client req. run_request; intros client req Hin Hparse; pick_call;
    settle.
Qed.

(** X4: when the first choice of the model's answer carries no parsed
    object, the request ends with AttributeError, and no confidence
    evaluator is called: neither the OpenAI evaluator, nor the layout
    evaluator, nor the merger. *)
Theorem from_bytes_unparsed_choice
    world self document_bytes fmt options client req completion choice :
  (client, req) ∈ extraction_calls (from_bytes world self document_bytes fmt options) →
  parse world client req = Ok completion →
  choices completion !! 0%nat = Some choice →
  parsed (message choice) = None →
  outcome (from_bytes world self document_bytes fmt options) = Raise AttributeError ∧
  openai_evaluations (from_bytes world self document_bytes fmt options) = [] ∧
  di_evaluations (from_bytes world self document_bytes fmt options) = [] ∧
  merges (from_bytes world self document_bytes fmt options) = [].
Proof.
  revert client req completion choice.
  run_request; intros client req completion choice' Hin Hparse Hchoice Hnone;
    pick_call; settle.
Qed.

(** X5: a final confidence map without the OVERALL key makes the request
    end with KeyError on that key: the map of the OpenAI evaluator when no
    layout call was made, the map of the merger otherwise. *)
Theorem from_bytes_missing_overall world self document_bytes fmt options m :
  m !! OVERALL_CONFIDENCE_KEY = None →
  (∀ d choice,
     layout_calls (from_bytes world self document_bytes fmt options) = [] →
     (d, choice) ∈ openai_evaluations (from_bytes world self document_bytes fmt options) →
     evaluate_confidence_openai world d choice = Ok m →
     outcome (from_bytes world self document_bytes fmt options)
       = Raise (KeyError OVERALL_CONFIDENCE_KEY)) ∧
  (∀ a b,
     (a, b) ∈ merges (from_bytes world self document_bytes fmt options) →
     merge_confidence_values world a b = Ok m →
     outcome (from_bytes world self document_bytes fmt options)
       = Raise (KeyError OVERALL_CONFIDENCE_KEY)).
Proof.
  intros Hmissing. split.
  - run_request; intros d choice' Hnone Hin Heval; pick_call; settle.
  - run_request; intros a b Hin Hmerge; pick_call; settle.
Qed.

(** ** What a returned result is made of *)

(** X6: a returned result always carries an object: the parsed object of
    the first choice of the model's answer to the one extraction call, and
    it is the dump of this object, with that choice, that the OpenAI
    evaluator is given. *)
Theorem from_bytes_data world self document_bytes fmt options r :
  outcome (from_bytes world self document_bytes fmt options) = Ok r →
  ∃ client req completion choice obj,
    extraction_calls (from_bytes world self document_bytes fmt options)
      = [(client, req)] ∧
    parse world client req = Ok completion ∧
    choices completion !! 0%nat = Some choice ∧
    parsed (message choice) = Some obj ∧
    data r = Some obj ∧
    openai_evaluations (from_bytes world self document_bytes fmt options)
      = [(model_dump obj, choice)].
Proof.
  revert r. run_request; intros r Hr; simplify_eq; simpl;
    by do 5 eexists.
Qed.

(** X7: with the layout path taken, the confidence map of a returned
    result is what the merger answered when given the map of the layout
    evaluator first and the map of the OpenAI evaluator second; the layout
    evaluator is given the dump that the OpenAI evaluator is given and the
    answer of the one layout call. *)
Theorem from_bytes_merged_confidence world self document_bytes fmt options r di lreq :
  outcome (from_bytes world self document_bytes fmt options) = Ok r →
  (di, lreq) ∈ layout_calls (from_bytes world self document_bytes fmt options) →
  ∃ d choice analysis a b,
    begin_analyze_document world di lreq = Ok analysis ∧
    openai_evaluations (from_bytes world self document_bytes fmt options)
      = [(d, choice)] ∧
    di_evaluations (from_bytes world self document_bytes fmt options)
      = [(d, analysis)] ∧
    evaluate_confidence_di world d analysis = Ok a ∧
    evaluate_confidence_openai world d choice = Ok b ∧
    merges (from_bytes world self document_bytes fmt options) = [(a, b)] ∧
    merge_confidence_values world a b = Ok (confidence_scores r).
Proof.
  revert r di lreq. run_request; intros r di' lreq Hr Hin; pick_call;
    simplify_eq; simpl; by do 5 eexists.
Qed.

(** ** Calls *)

(** X8: in the course of one request each collaborator is called at most
    once, and in this order: layout analysis, rendering, extraction,
    OpenAI evaluator, layout evaluator, merger. *)
Theorem from_bytes_call_order world self document_bytes fmt options :
  StronglySorted lt
    (phase <$> trace (from_bytes world self document_bytes fmt options)).
Proof.
  run_request; repeat (constructor; [|repeat constructor; lia]); constructor.
Qed.

(** X9: an empty endpoint string turns the layout path off as an absent
    endpoint does: no layout call, no merge, and the confidence map of a
    returned result is the answer of the OpenAI evaluator. *)
Theorem from_bytes_empty_endpoint world self document_bytes fmt options :
  aiservices_endpoint options = Some EmptyString →
  layout_calls (from_bytes world self document_bytes fmt options) = [] ∧
  merges (from_bytes world self document_bytes fmt options) = [] ∧
  ∀ r, outcome (from_bytes world self document_bytes fmt options) = Ok r →
    ∃ d choice,
      openai_evaluations (from_bytes world self document_bytes fmt options)
        = [(d, choice)] ∧
      evaluate_confidence_openai world d choice = Ok (confidence_scores r).
Proof.
  intros Hempty.
  assert (get_document_intelligence_client self options = None) as Hdi.
  { apply get_document_intelligence_client_None. by rewrite Hempty. }
  unfold from_bytes. rewrite Hdi.
  repeat split; try (run_request; done).
  run_request; intros r Hr; simplify_eq; simpl; by do 2 eexists.
Qed.

(** X10: the layout service is called through a client bound to the
    configured endpoint and to the credential of the extractor, once. *)
Theorem from_bytes_layout_client world self document_bytes fmt options endpoint :
  aiservices_endpoint options = Some endpoint →
  endpoint ≠ EmptyString →
  fst <$> layout_calls (from_bytes world self document_bytes fmt options) =
  [ {| di_endpoint := endpoint; di_credential := credential self |} ].
Proof.
  intros Hep Hne. unfold from_bytes.
  rewrite (get_document_intelligence_client_Some _ _ _ Hep Hne).
  run_request; done.
Qed.

(** X11: the extraction call goes through a client of API version
    2024-12-01-preview bound to the OpenAI endpoint of the options and to
    a token provider for the extractor's credential with the Cognitive
    Services scope; its request names the deployment of the options, passes
    the response format on, asks for log-probabilities, and opens with the
    system prompt of the options. *)
Theorem from_bytes_extraction_call world self document_bytes fmt options client req :
  (client, req) ∈ extraction_calls (from_bytes world self document_bytes fmt options) →
  api_version client = "2024-12-01-preview" ∧
  azure_endpoint client = openai_endpoint options ∧
  provider_credential (azure_ad_token_provider client) = credential self ∧
  provider_scope (azure_ad_token_provider client)
    = "https://cognitiveservices.azure.com/.default" ∧
  model req = deployment_name options ∧
  response_format req = fmt ∧
  logprobs req = true ∧
  messages req !! 0%nat
    = Some {| role := "system"; content := Plain (system_prompt options) |}.
Proof.
  revert client req. run_request; intros client req Hin; pick_call;
    by simplify_eq.
Qed.

End Requests.

(** * Further properties of the page-image step *)

Section PageImages.
Context `{Collaborators}.
Implicit Types (world : Services) (self : DocumentDataExtractor).
Implicit Types (options : DocumentDataExtractorOptions) (document_bytes : bytes).

Lemma py_slice_contiguous {A} (l : list A) (start stop : Z) :
  ∃ before after, l = before ++ py_slice l start stop ++ after.
Proof.
  unfold py_slice.
  set (lo := Z.to_nat (slice_index (Z.of_nat (length l)) start)).
  set (n := Z.to_nat _).
  exists (take lo l), (drop n (drop lo l)).
  by rewrite (take_drop n (drop lo l)), take_drop.
Qed.

(** X12: for a range inside the document, [1 ≤ page_start ≤ page_end ≤
    number of pages], the step returns [page_end - page_start + 1] images,
    the k-th of which (from 0) is the image of page [page_start + k]
    (from 1) of the document. *)
Theorem get_document_image_uris_inclusive_range document_bytes rendered (s e : Z) :
  convert_from_bytes document_bytes = Ok rendered →
  (1 ≤ s ≤ e)%Z →
  (e ≤ Z.of_nat (length rendered))%Z →
  ∃ uris,
    outcome (get_document_image_uris document_bytes (Some s) (Some e)) = Ok uris ∧
    Z.of_nat (length uris) = (e - s + 1)%Z ∧
    ∀ k : nat, (k < length uris)%nat →
      uris !! k = image_uri <$> rendered !! (Z.to_nat (s - 1) + k)%nat.
Proof.
  intros Hconv Hrange Hend. rewrite get_document_image_uris_eq, Hconv.
  unfold outcome, selected_pages, truthy, truthy_int. simpl.
  destruct (Z.eqb_spec s 0), (Z.eqb_spec e 0); try lia. simpl.
  rewrite py_slice_inner by lia.
  eexists. split; [done|]. rewrite length_fmap, length_take, length_drop.
  split; [lia|].
  intros k Hk. rewrite list_lookup_fmap, lookup_take_lt by lia.
  by rewrite lookup_drop.
Qed.

(** X13: whatever the two bounds are (absent, zero, negative, reversed or
    beyond the end), the images returned are those of a run of consecutive
    pages of the document, in page order: no page is repeated, reordered
    or invented. *)
Theorem get_document_image_uris_contiguous
    document_bytes rendered (page_start page_end : option Z) :
  convert_from_bytes document_bytes = Ok rendered →
  ∃ uris before after,
    outcome (get_document_image_uris document_bytes page_start page_end) = Ok uris ∧
    image_uri <$> rendered = before ++ uris ++ after.
Proof.
  intros Hconv. rewrite get_document_image_uris_eq, Hconv. unfold outcome. simpl.
  assert (∃ before after,
            rendered = before ++ selected_pages rendered page_start page_end ++ after)
    as (before & after & Hparts).
  { unfold selected_pages.
    destruct page_start as [s|], page_end as [e|];
      try (exists [], []; by rewrite app_nil_r).
    destruct (truthy s && truthy e).
    - apply py_slice_contiguous.
    - exists [], []. by rewrite app_nil_r. }
  exists (image_uri <$> selected_pages rendered page_start page_end),
         (image_uri <$> before), (image_uri <$> after).
  split; [done|]. by rewrite Hparts at 1; rewrite !fmap_app.
Qed.

(** X14: the layout service and the model are given the same pages. For
    a range inside the document, [1 ≤ page_start ≤ page_end ≤ number of
    pages], with a layout endpoint configured and the layout call answered,
    the one layout request asks for the page range "page_start-page_end"
    and the one extraction request holds the images of the pages
    [page_start] to [page_end] of the document, in order. *)
Theorem from_bytes_same_pages
    world self document_bytes fmt options rendered (s e : Z) :
  convert_from_bytes document_bytes = Ok rendered →
  page_start options = Some s →
  page_end options = Some e →
  (1 ≤ s ≤ e)%Z →
  (e ≤ Z.of_nat (length rendered))%Z →
  truthy (aiservices_endpoint options) = true →
  (∀ call, call ∈ layout_calls (from_bytes world self document_bytes fmt options) →
     ∃ result, begin_analyze_document world call.1 call.2 = Ok result) →
  pages <$> layout_requests (from_bytes world self document_bytes fmt options)
    = [Some (pretty s +:+ "-" +:+ pretty e)] ∧
  ∃ req,
    extraction_requests (from_bytes world self document_bytes fmt options) = [req] ∧
    image_urls (user_parts req) =
      image_uri <$> take (Z.to_nat (e - s + 1)) (drop (Z.to_nat (s - 1)) rendered).
Proof.
  intros Hconv Hs He Hrange Hend Hep Hanswered.
  assert (truthy s && truthy e = true) as Hboth.
  { unfold truthy, truthy_int.
    destruct (Z.eqb_spec s 0), (Z.eqb_spec e 0); simpl; done || lia. }
  split.
  - rewrite from_bytes_layout_requests, Hep. unfold page_range.
    by rewrite Hs, He, Hboth.
  - destruct (from_bytes_the_extraction_request _ _ _ _ _ _ Hconv Hanswered)
      as (req & Hreq & Hparts).
    exists req. split; [done|].
    rewrite Hparts, !image_urls_app, image_urls_images. unfold selected_pages.
    rewrite Hs, He, Hboth, py_slice_inner by lia.
    replace (e - (s - 1))%Z with (e - s + 1)%Z by lia.
    by destruct (layout_markdown _ _).
Qed.

End PageImages.

(** * Further properties, in the concrete world *)

Lemma from_bytes_never_catches_witness :
  outcome (demo_run None None (Some "https://layout.down"))
    = Raise (ServiceError "timeout") ∧
  last (trace (demo_run None None (Some "https://layout.down")))
    = Some (AnalyzeCall (demo_di_client "https://layout.down")
                        (demo_layout_request None)).
Proof.
  refine (from_bytes_never_catches demo_world demo_self demo_document ()
            (demo_options None None (Some "https://layout.down"))
            (AnalyzeCall (demo_di_client "https://layout.down")
                         (demo_layout_request None))
            (ServiceError "timeout") _ _).
  - apply list_elem_of_singleton. vm_compute. reflexivity.
  - reflexivity.
Defined.

Lemma from_bytes_error_origin_witness :
  (∃ c, last (trace (demo_run None None (Some "https://layout.down"))) = Some c ∧
        failure demo_world c = Some (ServiceError "timeout")) ∨
  ServiceError "timeout" = IndexError ∨
  ServiceError "timeout" = AttributeError ∨
  ServiceError "timeout" = KeyError OVERALL_CONFIDENCE_KEY.
Proof.
  refine (from_bytes_error_origin demo_world demo_self demo_document ()
            (demo_options None None (Some "https://layout.down"))
            (ServiceError "timeout") _).
  vm_compute. reflexivity.
Defined.

Lemma from_bytes_no_choice_witness :
  outcome (demo_run_answering {| choices := [] |} demo_openai_confidence)
    = Raise IndexError ∧
  openai_evaluations (demo_run_answering {| choices := [] |} demo_openai_confidence)
    = [] ∧
  di_evaluations (demo_run_answering {| choices := [] |} demo_openai_confidence)
    = [] ∧
  merges (demo_run_answering {| choices := [] |} demo_openai_confidence) = [].
Proof.
  refine (from_bytes_no_choice
            (demo_world_answering {| choices := [] |} demo_openai_confidence)
            demo_self demo_document () (demo_options None None None)
            demo_client (demo_request demo_whole_document) _ _).
  - apply list_elem_of_singleton. vm_compute. reflexivity.
  - reflexivity.
Defined.

Lemma from_bytes_unparsed_choice_witness :
  outcome (demo_run_answering {| choices := [demo_refusal] |} demo_openai_confidence)
    = Raise AttributeError ∧
  openai_evaluations
    (demo_run_answering {| choices := [demo_refusal] |} demo_openai_confidence) = [] ∧
  di_evaluations
    (demo_run_answering {| choices := [demo_refusal] |} demo_openai_confidence) = [] ∧
  merges
    (demo_run_answering {| choices := [demo_refusal] |} demo_openai_confidence) = [].
Proof.
  refine (from_bytes_unparsed_choice
            (demo_world_answering {| choices := [demo_refusal] |}
                                  demo_openai_confidence)
            demo_self demo_document () (demo_options None None None)
            demo_client (demo_request demo_whole_document)
            {| choices := [demo_refusal] |} demo_refusal _ _ _ _).
  - apply list_elem_of_singleton. vm_compute. reflexivity.
  - reflexivity.
  - reflexivity.
  - reflexivity.
Defined.

Lemma from_bytes_missing_overall_witness :
  outcome (demo_run_answering {| choices := [demo_choice] |} demo_partial_confidence)
    = Raise (KeyError "_overall").
Proof.
  refine (proj1 (from_bytes_missing_overall
                   (demo_world_answering {| choices := [demo_choice] |}
                                         demo_partial_confidence)
                   demo_self demo_document () (demo_options None None None)
                   demo_partial_confidence _)
                "INV-100" demo_choice _ _ _).
  - reflexivity.
  - vm_compute. reflexivity.
  - apply list_elem_of_singleton. vm_compute. reflexivity.
  - reflexivity.
Defined.

Lemma from_bytes_data_witness :
  ∃ client req completion choice obj,
    extraction_calls (demo_run None None None) = [(client, req)] ∧
    parse demo_world client req = Ok completion ∧
    choices completion !! 0%nat = Some choice ∧
    parsed (message choice) = Some obj ∧
    data (demo_result demo_openai_confidence 0.5%float) = Some obj ∧
    openai_evaluations (demo_run None None None) = [(model_dump obj, choice)].
Proof.
  refine (from_bytes_data demo_world demo_self demo_document ()
            (demo_options None None None)
            (demo_result demo_openai_confidence 0.5%float) _).
  vm_compute. reflexivity.
Defined.

Lemma from_bytes_merged_confidence_witness :
  ∃ d choice analysis a b,
    begin_analyze_document demo_world (demo_di_client "https://layout.up")
                           (demo_layout_request None) = Ok analysis ∧
    openai_evaluations (demo_run None None (Some "https://layout.up"))
      = [(d, choice)] ∧
    di_evaluations (demo_run None None (Some "https://layout.up"))
      = [(d, analysis)] ∧
    evaluate_confidence_di demo_world d analysis = Ok a ∧
    evaluate_confidence_openai demo_world d choice = Ok b ∧
    merges (demo_run None None (Some "https://layout.up")) = [(a, b)] ∧
    merge_confidence_values demo_world a b
      = Ok (demo_di_confidence ∪ demo_openai_confidence).
Proof.
  refine (from_bytes_merged_confidence demo_world demo_self demo_document ()
            (demo_options None None (Some "https://layout.up"))
            (demo_result (demo_di_confidence ∪ demo_openai_confidence) 0.75%float)
            (demo_di_client "https://layout.up") (demo_layout_request None) _ _).
  - vm_compute. reflexivity.
  - apply list_elem_of_singleton. vm_compute. reflexivity.
Defined.

Lemma from_bytes_empty_endpoint_witness :
  layout_calls (demo_run None None (Some EmptyString)) = [] ∧
  merges (demo_run None None (Some EmptyString)) = [] ∧
  ∀ r, outcome (demo_run None None (Some EmptyString)) = Ok r →
    ∃ d choice,
      openai_evaluations (demo_run None None (Some EmptyString)) = [(d, choice)] ∧
      evaluate_confidence_openai demo_world d choice = Ok (confidence_scores r).
Proof.
  refine (from_bytes_empty_endpoint demo_world demo_self demo_document ()
            (demo_options None None (Some EmptyString)) _).
  reflexivity.
Defined.

Lemma from_bytes_layout_client_witness :
  fst <$> layout_calls (demo_run None None (Some "https://layout.up"))
    = [demo_di_client "https://layout.up"].
Proof.
  refine (from_bytes_layout_client demo_world demo_self demo_document ()
            (demo_options None None (Some "https://layout.up"))
            "https://layout.up" _ _).
  - reflexivity.
  - discriminate.
Defined.

Lemma from_bytes_extraction_call_witness :
  api_version demo_client = "2024-12-01-preview" ∧
  azure_endpoint demo_client = "https://openai.example" ∧
  provider_credential (azure_ad_token_provider demo_client) = () ∧
  provider_scope (azure_ad_token_provider demo_client)
    = "https://cognitiveservices.azure.com/.default" ∧
  model (demo_request demo_whole_document) = "gpt-4o" ∧
  response_format (demo_request demo_whole_document) = () ∧
  logprobs (demo_request demo_whole_document) = true ∧
  messages (demo_request demo_whole_document) !! 0%nat
    = Some {| role := "system";
              content :=
                Plain "You are an AI assistant that extracts data from documents." |}.
Proof.
  refine (from_bytes_extraction_call demo_world demo_self demo_document ()
            (demo_options None None None)
            demo_client (demo_request demo_whole_document) _).
  apply list_elem_of_singleton. vm_compute. reflexivity.
Defined.

Lemma get_document_image_uris_inclusive_range_witness :
  ∃ uris,
    outcome (get_document_image_uris demo_document (Some 2%Z) (Some 4%Z)) = Ok uris ∧
    Z.of_nat (length uris) = (4 - 2 + 1)%Z ∧
    ∀ k : nat, (k < length uris)%nat →
      uris !! k = image_uri <$> demo_pages !! (Z.to_nat (2 - 1) + k)%nat.
Proof.
  refine (get_document_image_uris_inclusive_range
            demo_document demo_pages 2 4 _ _ _).
  - reflexivity.
  - lia.
  - simpl. lia.
Defined.

Lemma get_document_image_uris_contiguous_witness :
  ∃ uris before after,
    outcome (get_document_image_uris demo_document (Some (-2)%Z) (Some 9%Z))
      = Ok uris ∧
    image_uri <$> demo_pages = before ++ uris ++ after.
Proof.
  refine (get_document_image_uris_contiguous
            demo_document demo_pages (Some (-2)%Z) (Some 9%Z) _).
  reflexivity.
Defined.

Lemma from_bytes_same_pages_witness :
  pages <$> layout_requests (demo_run (Some 2%Z) (Some 3%Z) (Some "https://layout.up"))
    = [Some "2-3"] ∧
  ∃ req,
    extraction_requests (demo_run (Some 2%Z) (Some 3%Z) (Some "https://layout.up"))
      = [req] ∧
    image_urls (user_parts req) =
      image_uri <$> take (Z.to_nat (3 - 2 + 1)) (drop (Z.to_nat (2 - 1)) demo_pages).
Proof.
  refine (from_bytes_same_pages demo_world demo_self demo_document ()
            (demo_options (Some 2%Z) (Some 3%Z) (Some "https://layout.up"))
            demo_pages 2 3 _ _ _ _ _ _ _).
  - reflexivity.
  - reflexivity.
  - reflexivity.
  - lia.
  - simpl. lia.
  - reflexivity.
  - intros call Hin. apply list_elem_of_singleton in Hin. subst call.
    eexists. reflexivity.
Defined.

(** * The invoice models *)

Section InvoiceJson.
Context `{LaxMode}.

(** ** Fields *)

Lemma validate_serialize_str (s : string) :
  serialize_str s ≠ JNull ∧ validate_str (serialize_str s) = Some s.
Proof. done. Qed.

Lemma validate_serialize_int (n : Z) :
  serialize_int n ≠ JNull ∧ validate_int (serialize_int n) = Some n.
Proof. done. Qed.

Lemma validate_serialize_float (x : float) :
  is_finite x = true →
  serialize_float x ≠ JNull ∧ validate_float (serialize_float x) = Some x.
Proof. unfold serialize_float. by intros ->. Qed.

(** A float that is infinite or NaN is written [null]. *)
Lemma serialize_float_not_finite (x : float) :
  is_finite x = false → serialize_float x = JNull.
Proof. unfold serialize_float. by intros ->. Qed.

(** An optional value is read back as it was, provided the value itself is
    and is not written [null]. *)
Lemma validate_serialize_optional {A} (serialize : A → json)
    (validate : json → option A) (value : option A) :
  (∀ a, value = Some a → serialize a ≠ JNull ∧ validate (serialize a) = Some a) →
  validate_optional validate (serialize_optional serialize value) = Some value.
Proof.
  intros Hvalue. destruct value as [a|]; [|done].
  destruct (Hvalue a eq_refl) as [Hnull Hback]. simpl.
  unfold validate_optional. rewrite Hback.
  by destruct (serialize a).
Qed.

Lemma validate_serialize_list {A} (serialize : A → json)
    (validate : json → option A) (l : list A) :
  Forall (λ a, validate (serialize a) = Some a) l →
  serialize_list serialize l ≠ JNull ∧
  validate_list validate (serialize_list serialize l) = Some l.
Proof.
  intros Hall. split; [done|]. unfold validate_list, serialize_list.
  induction Hall as [|a l Ha _ IH]; [done|].
  by simplify_option_eq.
Qed.

(** ** Models *)

Lemma InvoiceAddress_from_json_to_json (obj : InvoiceAddress.t) :
  InvoiceAddress.to_json obj ≠ JNull ∧
  InvoiceAddress.from_json (InvoiceAddress.to_json obj) = Some obj.
Proof.
  split; [done|]. read_back_by @validate_serialize_optional; [by destruct obj|..];
    intros; apply validate_serialize_str.
Qed.

Lemma InvoiceCurrency_from_json_to_json (obj : InvoiceCurrency.t) :
  InvoiceCurrency.finite obj = true →
  InvoiceCurrency.to_json obj ≠ JNull ∧
  InvoiceCurrency.from_json (InvoiceCurrency.to_json obj) = Some obj.
Proof.
  intros Hfinite. split; [done|]. read_back_by @validate_serialize_optional; [by destruct obj|..];
    try (intros; apply validate_serialize_str).
  intros x Hx. apply validate_serialize_float.
  unfold InvoiceCurrency.finite in Hfinite. by rewrite Hx in Hfinite.
Qed.

(** An amount that is infinite or NaN is read back as absent. *)
Lemma InvoiceCurrency_from_json_to_json_not_finite code (x : float) :
  is_finite x = false →
  InvoiceCurrency.from_json
    (InvoiceCurrency.to_json
       {| InvoiceCurrency.currency_code := code;
          InvoiceCurrency.amount := Some x |})
  = Some {| InvoiceCurrency.currency_code := code;
            InvoiceCurrency.amount := None |}.
Proof.
  intros Hx.
  unfold InvoiceCurrency.from_json, InvoiceCurrency.to_json,
    InvoiceCurrency.model_validate_json, InvoiceCurrency.model_dump_json.
  cbn [member String.eqb Ascii.eqb Bool.eqb mbind option_bind
       InvoiceCurrency.currency_code InvoiceCurrency.amount serialize_optional].
  rewrite (serialize_float_not_finite x Hx).
  by destruct code.
Qed.

Lemma InvoiceItem_from_json_to_json (obj : InvoiceItem.t) :
  InvoiceItem.finite obj = true →
  InvoiceItem.from_json (InvoiceItem.to_json obj) = Some obj.
Proof.
  unfold InvoiceItem.finite. intros [[Htax Hunit]%andb_prop Htotal]%andb_prop.
  read_back_by @validate_serialize_optional; [by destruct obj|..];
    try (intros; apply validate_serialize_str);
    try (intros; apply validate_serialize_int);
    intros c Hc; apply InvoiceCurrency_from_json_to_json;
    first [ by rewrite Hc in Htax | by rewrite Hc in Hunit
          | by rewrite Hc in Htotal ].
Qed.

(** C10, as the code has it: for every invoice whose amounts (subtotal,
    total discount, total tax, invoice total, and tax, unit price and
    total of every line item) are neither infinite nor NaN, reading back
    what [to_json] wrote gives the invoice itself. *)
Theorem Invoice_from_json_to_json (obj : Invoice.t) :
  Invoice.finite obj = true →
  Invoice.from_json (Invoice.to_json obj) = Some obj.
Proof.
  unfold Invoice.finite.
  intros [[[[Hsub Hdiscount]%andb_prop Htax]%andb_prop Htotal]%andb_prop
            Hitems]%andb_prop.
  read_back_by @validate_serialize_optional; [by destruct obj|..];
    try (intros; apply validate_serialize_str);
    try (intros; apply InvoiceAddress_from_json_to_json);
    try (intros c Hc; apply InvoiceCurrency_from_json_to_json;
         first [ by rewrite Hc in Hsub | by rewrite Hc in Hdiscount
               | by rewrite Hc in Htax | by rewrite Hc in Htotal ]).
  intros l Hl. apply validate_serialize_list.
  rewrite Hl in Hitems. simpl in Hitems.
  apply Forall_forall. intros item Hin.
  apply InvoiceItem_from_json_to_json.
  rewrite forallb_forall in Hitems. apply Hitems. by apply list_elem_of_In.
Qed.

End InvoiceJson.

(** C10 fails as stated: an invoice whose subtotal is infinite is written
    with a [null] amount and read back with the amount absent. *)
Lemma Invoice_from_json_to_json_infinite :
  @Invoice.from_json strict_mode
     (Invoice.to_json (demo_invoice (Some (demo_usd infinity))))
    = Some (demo_invoice
              (Some {| InvoiceCurrency.currency_code := Some "USD";
                       InvoiceCurrency.amount := None |})) ∧
  @Invoice.from_json strict_mode
     (Invoice.to_json (demo_invoice (Some (demo_usd infinity))))
    ≠ Some (demo_invoice (Some (demo_usd infinity))).
Proof.
  split; [vm_compute; reflexivity|]. vm_compute. discriminate.
Qed.

Lemma Invoice_from_json_to_json_witness :
  @Invoice.from_json strict_mode (Invoice.to_json (demo_invoice (Some (demo_usd 60))))
    = Some (demo_invoice (Some (demo_usd 60))).
Proof.
  apply (@Invoice_from_json_to_json strict_mode). vm_compute. reflexivity.
Defined.
